(** * Review-sentiment dashboard (app.py): a shallow embedding

    The script loads a CSV of reviews, derives a few aggregates from the
    resulting data frame and renders them as dashboard widgets.  The data
    frame operations the script calls are written out as list functions;
    Python exceptions are values of [result]; the widgets the script emits
    are collected in order by a small writer/exception monad [ui]. *)

From Stdlib Require Import List String Ascii ZArith QArith Lia Bool Arith DecimalString.
From Stdlib Require Import Sorting.Sorted Uint63 PrimFloat.
From Stdlib Require Import Sorting.Permutation.
Import ListNotations.
Open Scope string_scope.

(** ** Exceptions and results *)

Inductive exn : Type :=
| KeyError (key : string)
| TypeError
| ValueError
| ZeroDivisionError
| AttributeError (attr : string).

Inductive result (A : Type) : Type :=
| Ok (a : A)
| Raise (e : exn).
Arguments Ok {A} a.
Arguments Raise {A} e.

Definition rbind {A B : Type} (r : result A) (k : A -> result B) : result B :=
  match r with
  | Ok a => k a
  | Raise e => Raise e
  end.

Declare Scope result_scope.
Delimit Scope result_scope with result.
Notation "x <- r ;; k" := (rbind r (fun x => k))
  (at level 61, r at next level, right associativity) : result_scope.
Open Scope result_scope.

Fixpoint mapM {A B : Type} (f : A -> result B) (l : list A) : result (list B) :=
  match l with
  | [] => Ok []
  | a :: l' => b <- f a ;; bs <- mapM f l' ;; Ok (b :: bs)
  end.

(** ** Data frames

    A cell is what [pd.read_csv] leaves in a column: an integer, a finite
    float (a rational), a missing value, a string, or, after
    [pd.to_datetime], a timestamp in nanoseconds or [NaT]. *)

Inductive cell : Type :=
| CInt (z : Z)
| CFloat (q : Q)
| CNaN
| CStr (s : string)
| CTime (ns : Z)
| CNaT.

(** A row is the record of its cells by column name; a column a row has
    no cell for reads as missing. *)
Definition record : Type := list (string * cell).

Record DataFrame : Type := mkDataFrame {
  columns : list string;
  rows : list record
}.

(** [len(df)], [df.shape[0]] *)
Definition len (df : DataFrame) : nat := List.length (rows df).

(** [name in df.columns] *)
Definition has_column (name : string) (df : DataFrame) : bool :=
  existsb (String.eqb name) (columns df).

Fixpoint dict_get {V : Type} (d : list (string * V)) (k : string) : option V :=
  match d with
  | [] => None
  | (k', v) :: d' => if String.eqb k' k then Some v else dict_get d' k
  end.

(** [d[k] = v] on a dictionary kept in insertion order. *)
Fixpoint dict_set {V : Type} (d : list (string * V)) (k : string) (v : V)
  : list (string * V) :=
  match d with
  | [] => [(k, v)]
  | (k', v') :: d' =>
      if String.eqb k' k then (k', v) :: d'
      else (k', v') :: dict_set d' k v
  end.

Definition field (name : string) (r : record) : cell :=
  match dict_get r name with
  | Some c => c
  | None => CNaN
  end.

(** [df[name]]: the column as a list, [KeyError] when there is none. *)
Definition getitem (df : DataFrame) (name : string) : result (list cell) :=
  if has_column name df then Ok (map (field name) (rows df))
  else Raise (KeyError name).

(** [df[mask]]: the rows whose mask entry is [True]. *)
Definition select (df : DataFrame) (mask : list bool) : DataFrame :=
  {| columns := columns df;
     rows := map fst (filter snd (combine (rows df) mask)) |}.

(** [df.empty] *)
Definition empty (df : DataFrame) : bool :=
  match columns df, rows df with
  | _ :: _, _ :: _ => false
  | _, _ => true
  end.

(** [df.head(n)] *)
Definition head (n : nat) (df : DataFrame) : DataFrame :=
  {| columns := columns df; rows := firstn n (rows df) |}.

(** [series >= k] and [series <= k] for an integer [k]: a missing value
    compares false, a string against a number raises. *)
Definition cell_ge (k : Z) (c : cell) : result bool :=
  match c with
  | CInt z => Ok (k <=? z)%Z
  | CFloat q => Ok (Qle_bool (inject_Z k) q)
  | CNaN => Ok false
  | CStr _ | CTime _ | CNaT => Raise TypeError
  end.

Definition cell_le (k : Z) (c : cell) : result bool :=
  match c with
  | CInt z => Ok (z <=? k)%Z
  | CFloat q => Ok (Qle_bool q (inject_Z k))
  | CNaN => Ok false
  | CStr _ | CTime _ | CNaT => Raise TypeError
  end.

(** [series == s] and [series != s] for a string [s]: never raise. *)
Definition cell_eq_str (s : string) (c : cell) : bool :=
  match c with
  | CStr t => String.eqb t s
  | _ => false
  end.

Definition cell_ne_str (s : string) (c : cell) : bool :=
  negb (cell_eq_str s c).

(** Python's true division of two non-negative [int]s, as an exact
    rational. *)
Definition truediv (k n : nat) : result Q :=
  match n with
  | O => Raise ZeroDivisionError
  | S _ => Ok (inject_Z (Z.of_nat k) / inject_Z (Z.of_nat n))%Q
  end.

(** ** The fixed dimensions *)

Definition LABEL_COLUMNS : list string :=
  [ "Location#Transportation"; "Location#Downtown"; "Location#Easy_to_find";
    "Service#Queue"; "Service#Hospitality"; "Service#Parking"; "Service#Timely";
    "Price#Level"; "Price#Cost_effective"; "Price#Discount";
    "Ambience#Decoration"; "Ambience#Noise"; "Ambience#Space"; "Ambience#Sanitary";
    "Food#Portion"; "Food#Taste"; "Food#Appearance"; "Food#Recommend" ].

Definition ASPECT_MAP : list (string * string) :=
  [ ("Food#Taste", "味道/口感"); ("Food#Portion", "分量");
    ("Food#Appearance", "外观"); ("Food#Recommend", "总体推荐");
    ("Price#Level", "价格水平"); ("Price#Cost_effective", "性价比");
    ("Price#Discount", "折扣优惠");
    ("Service#Timely", "物流/时效"); ("Service#Hospitality", "服务态度");
    ("Service#Queue", "排队");
    ("Ambience#Decoration", "包装/环境"); ("Ambience#Sanitary", "卫生") ].

(** [ASPECT_MAP.get(col, col)] *)
Definition aspect_name (col : string) : string :=
  match dict_get ASPECT_MAP col with
  | Some n => n
  | None => col
  end.

(** ** Section 1 of the dashboard: the KPIs *)

(** Lines 93-102: the rate and the label of the second metric. *)
Definition positive_rate (df : DataFrame) : result (Q * string) :=
  let total_comments := len df in
  if has_column "score" df then
    score <- getitem df "score" ;;
    mask <- mapM (cell_ge 4) score ;;
    frac <- truediv (len (select df mask)) total_comments ;;
    Ok ((frac * 100)%Q, "五星好评率")
  else
    rec <- getitem df "Food#Recommend" ;;
    let pos_rec := len (select df (map (cell_eq_str "正面") rec)) in
    frac <- truediv pos_rec total_comments ;;
    Ok ((frac * 100)%Q, "推荐指数 (基于模型)").

(** Lines 110-113: the mention count of every dimension, then the first
    dimension whose count is maximal. *)
Fixpoint mention_counts (df : DataFrame) (cols : list string)
  (counts : list (string * nat)) : result (list (string * nat)) :=
  match cols with
  | [] => Ok counts
  | col :: cols' =>
      labels <- getitem df col ;;
      mention_counts df cols'
        (dict_set counts col (len (select df (map (cell_ne_str "未提及") labels))))
  end.

(** [max(counts, key=counts.get)]: the keys are visited in insertion order
    and the running maximum is replaced only by a strictly larger value. *)
Fixpoint max_loop (best : string) (best_val : nat) (items : list (string * nat))
  : string :=
  match items with
  | [] => best
  | (k, v) :: items' =>
      if (best_val <? v)%nat then max_loop k v items' else max_loop best best_val items'
  end.

Definition max_key (counts : list (string * nat)) : result string :=
  match counts with
  | [] => Raise ValueError
  | (k, v) :: items => Ok (max_loop k v items)
  end.

Definition top_aspect (df : DataFrame) : result string :=
  counts <- mention_counts df LABEL_COLUMNS [] ;;
  max_key counts.

(** ** Section 2: the long-format aggregate *)

(** [vc = df[col].value_counts(); vc.get(sentiment, 0)]: how many cells of
    the column are that string. *)
Definition value_count (labels : list cell) (sentiment : string) : nat :=
  List.length (filter (cell_eq_str sentiment) labels).

Definition plot_record (col sentiment : string) (count : nat) : record :=
  [ ("维度", CStr (aspect_name col)); ("原始维度", CStr col);
    ("情感", CStr sentiment); ("评论数", CInt (Z.of_nat count)) ].

Definition SENTIMENTS : list string := ["正面"; "负面"; "中性"].

(** Lines 128-136, the inner loop. *)
Fixpoint sentiment_loop (col : string) (labels : list cell)
  (sentiments : list string) (plot_data : list record) : list record :=
  match sentiments with
  | [] => plot_data
  | sentiment :: rest =>
      let count := value_count labels sentiment in
      sentiment_loop col labels rest
        (if (0 <? count)%nat then plot_data ++ [plot_record col sentiment count]
         else plot_data)
  end.

(** Lines 124-136, the outer loop. *)
Fixpoint plot_data_loop (df : DataFrame) (cols : list string)
  (plot_data : list record) : result (list record) :=
  match cols with
  | [] => Ok plot_data
  | col :: cols' =>
      labels <- getitem df col ;;
      plot_data_loop df cols' (sentiment_loop col labels SENTIMENTS plot_data)
  end.

Definition plot_data (df : DataFrame) : result (list record) :=
  plot_data_loop df LABEL_COLUMNS [].

(** [pd.DataFrame(records)]: the columns are the keys of the records in
    order of first appearance, so an empty list gives a frame without
    columns. *)
Definition add_key (cols : list string) (kv : string * cell) : list string :=
  if existsb (String.eqb (fst kv)) cols then cols else cols ++ [fst kv].

Definition frame_of_records (records : list record) : DataFrame :=
  {| columns := fold_left (fun cols r => fold_left add_key r cols) records [];
     rows := records |}.

(** Numeric value of a cell, for sorting and summing. *)
Definition cell_value (c : cell) : option Q :=
  match c with
  | CInt z => Some (inject_Z z)
  | CFloat q => Some q
  | _ => None
  end.

(** [a] sorts strictly before [b] in descending order; cells without a
    numeric value go last. *)
Definition desc_before (a b : cell) : bool :=
  match cell_value a, cell_value b with
  | Some x, Some y => negb (Qle_bool x y)
  | Some _, None => true
  | None, _ => false
  end.

Fixpoint insert_desc (by_ : string) (r : record) (sorted : list record)
  : list record :=
  match sorted with
  | [] => [r]
  | r' :: rest =>
      if desc_before (field by_ r') (field by_ r)
      then r' :: insert_desc by_ r rest
      else r :: r' :: rest
  end.

(** [df.sort_values(by, ascending=False)] on a numeric column.  The order
    pandas gives to rows with equal keys is not used by any statement
    below. *)
Definition sort_values_desc (df : DataFrame) (by_ : string) : result DataFrame :=
  _ <- getitem df by_ ;;
  Ok {| columns := columns df;
        rows := fold_right (insert_desc by_) [] (rows df) |}.

(** The group keys of [groupby]: the distinct strings of the key column in
    ascending order (the script groups by a column of strings). *)
Fixpoint insert_key (k : string) (keys : list string) : list string :=
  match keys with
  | [] => [k]
  | k' :: rest =>
      if String.eqb k' k then keys
      else if String.ltb k' k then k' :: insert_key k rest
      else k :: keys
  end.

Definition group_keys (keys : list cell) : list string :=
  fold_right (fun c acc => match c with CStr s => insert_key s acc | _ => acc end)
    [] keys.

(** Sum of the integer cells of a column. *)
Definition sum_cells (l : list cell) : Z :=
  fold_right (fun c acc => match c with CInt z => (z + acc)%Z | _ => acc end) 0%Z l.

(** [df.groupby(by)[val].sum().reset_index()] for an integer column [val]. *)
Definition groupby_sum (df : DataFrame) (by_ val : string) : result DataFrame :=
  keys <- getitem df by_ ;;
  _ <- getitem df val ;;
  Ok {| columns := [by_; val];
        rows := map (fun k =>
                       [ (by_, CStr k);
                         (val, CInt (sum_cells
                            (map (field val)
                               (filter (fun r => cell_eq_str k (field by_ r))
                                  (rows df))))) ])
                    (group_keys keys) |}.

(** Line 157 *)
Definition aspect_counts (df_plot : DataFrame) : result DataFrame :=
  grouped <- groupby_sum df_plot "维度" "评论数" ;;
  sort_values_desc grouped "评论数".

(** Line 169 *)
Definition neg_counts (df_plot : DataFrame) : result DataFrame :=
  sentiment <- getitem df_plot "情感" ;;
  sorted <- sort_values_desc (select df_plot (map (cell_eq_str "负面") sentiment))
              "评论数" ;;
  Ok (head 5 sorted).

(** ** Widgets and the script monad *)

Inductive metric_value : Type :=
| MCount (n : nat)            (* f"{total_comments} 条" *)
| MRate (q : Q)               (* f"{positive_rate:.1f}%" *)
| MText (s : string).

Inductive widget : Type :=
| st_sidebar_success (msg : string)
| st_sidebar_info (msg : string)
| st_error (msg : string)
| st_date_input (min_date max_date : Z)
| st_text (s : string)         (* title, subheader, markdown, write, info *)
| st_metric (label : string) (value : metric_value)
| st_altair_chart (data : DataFrame)
| st_success (msg : string)
| st_pyplot (text : string)
| st_dataframe (df : DataFrame)
| st_download_button (data : DataFrame) (file_name : string).

Inductive halt : Type :=
| Stopped                      (* st.stop() *)
| Crashed (e : exn).           (* an exception nothing catches *)

Inductive step (A : Type) : Type :=
| Next (a : A)
| Halt (h : halt).
Arguments Next {A} a.
Arguments Halt {A} h.

(** The widgets emitted so far and how the script goes on. *)
Definition ui (A : Type) : Type := (list widget * step A)%type.

Definition ret {A : Type} (a : A) : ui A := ([], Next a).

Definition bind {A B : Type} (m : ui A) (k : A -> ui B) : ui B :=
  match m with
  | (w, Next a) => let (w', s) := k a in ((w ++ w')%list, s)
  | (w, Halt h) => (w, Halt h)
  end.

Definition emit (w : widget) : ui unit := ([w], Next tt).
Definition st_stop {A : Type} : ui A := ([], Halt Stopped).

Definition lift {A : Type} (r : result A) : ui A :=
  match r with
  | Ok a => ([], Next a)
  | Raise e => ([], Halt (Crashed e))
  end.

Declare Scope ui_scope.
Delimit Scope ui_scope with ui.
Notation "x <~ m ;; k" := (bind m (fun x => k))
  (at level 61, m at next level, right associativity) : ui_scope.
Notation "m ;;; k" := (bind m (fun _ => k))
  (at level 61, right associativity) : ui_scope.

(** ** Inputs of one run *)

(** What [pd.read_csv] does with a file: it raises, or it returns a frame. *)
Inductive csv_file : Type :=
| Unreadable
| Readable (df : DataFrame).

(** The radio button of the word cloud: "全部", "仅看好评", "仅看差评". *)
Inductive wc_mode : Type := WcAll | WcPositive | WcNegative.

Record session : Type := mkSession {
  uploaded_file : option csv_file;   (* [None]: nothing uploaded *)
  default_file : option csv_file;    (* [None]: os.path.exists is false *)
  wc_option : wc_mode;
  (* what the date input returns when it is shown: the tuple of the dates
     picked so far, two for a complete range (its default value is one) *)
  picked_dates : list Z
}.

(** Line 81, [start_date, end_date = st.sidebar.date_input(...)]: the
    assignment unpacks the tuple the picker returns into two names. *)
Definition unpack_range (picked : list Z) : result (Z * Z) :=
  match picked with
  | [start_date; end_date] => Ok (start_date, end_date)
  | _ => Raise ValueError
  end.

Definition ns_per_day : Z := 86400000000000.

(** [Timestamp.date()], as the number of the day. *)
Definition date (ns : Z) : Z := (ns / ns_per_day)%Z.

(** [series.min()] and [series.max()] of a datetime column, [None] for
    [NaT]. *)
Fixpoint time_min (s : list cell) : option Z :=
  match s with
  | [] => None
  | CTime t :: s' =>
      match time_min s' with
      | Some m => Some (Z.min t m)
      | None => Some t
      end
  | _ :: s' => time_min s'
  end.

Fixpoint time_max (s : list cell) : option Z :=
  match s with
  | [] => None
  | CTime t :: s' =>
      match time_max s' with
      | Some m => Some (Z.max t m)
      | None => Some t
      end
  | _ :: s' => time_max s'
  end.

(** [df[name] = s] *)
Definition setitem (df : DataFrame) (name : string) (s : list cell) : DataFrame :=
  {| columns := if has_column name df then columns df else columns df ++ [name];
     rows := map (fun rc => dict_set (fst rc) name (snd rc)) (combine (rows df) s) |}.

Section Script.

(** The library calls whose results the script only passes on. *)
Variable to_datetime_value : cell -> option Z.  (* [None]: cannot be parsed *)
Variable str_float : Q -> string.
Variable str_time : Z -> string.
(** The body of the [try] of the word cloud: [None] when it runs through,
    [Some e] when a call in it raises [e]. *)
Variable draw_wordcloud : string -> option string.

(** [pd.to_datetime(s, errors='coerce')]: a value that cannot be parsed
    becomes [NaT]. *)
Definition coerce (c : cell) : cell :=
  match to_datetime_value c with
  | Some ns => CTime ns
  | None => CNaT
  end.

Definition to_datetime_coerce (s : list cell) : list cell := map coerce s.

(** Lines 45-53.  The cache of [st.cache_data] does not change what one
    call returns. *)
Definition load_data (file : csv_file) : option DataFrame :=
  match file with
  | Unreadable => None
  | Readable df =>
      if has_column "time" df then
        match getitem df "time" with
        | Ok s => Some (setitem df "time" (to_datetime_coerce s))
        | Raise _ => None
        end
      else Some df
  end.

(** Lines 77-81 *)
Definition sidebar_filter (picked : list Z) (df : DataFrame) : ui unit :=
  (if has_column "time" df then
     t <~ lift (getitem df "time") ;;
     match time_min t, time_max t with
     | Some lo, Some hi =>
         emit (st_date_input (date lo) (date hi)) ;;;
         range <~ lift (unpack_range picked) ;;
         ret tt
     | _, _ => ret tt
     end
   else ret tt)%ui.

(** [series.astype(str)] *)
Definition astype_str (c : cell) : string :=
  match c with
  | CInt z => NilZero.string_of_int (Z.to_int z)
  | CFloat q => str_float q
  | CNaN => "nan"
  | CStr s => s
  | CTime ns => str_time ns
  | CNaT => "NaT"
  end.

Definition join_content (df : DataFrame) : result string :=
  content <- getitem df "content" ;;
  Ok (String.concat " " (map astype_str content)).

(** Lines 190-199 *)
Definition text_content (mode : wc_mode) (df : DataFrame) : result string :=
  match mode with
  | WcPositive =>
      if has_column "score" df then
        score <- getitem df "score" ;;
        mask <- mapM (cell_ge 4) score ;;
        join_content (select df mask)
      else join_content df
  | WcNegative =>
      if has_column "score" df then
        score <- getitem df "score" ;;
        mask <- mapM (cell_le 2) score ;;
        join_content (select df mask)
      else join_content df
  | WcAll => join_content df
  end.

(** Lines 201-217 *)
Definition wordcloud (text : string) : ui unit :=
  match text with
  | EmptyString => ret tt
  | String _ _ =>
      match draw_wordcloud text with
      | None => emit (st_pyplot text)
      | Some e => emit (st_error (" 词云生成出错: " ++ e))
      end
  end.

(** Lines 89-116 *)
Definition kpi_section (df : DataFrame) : ui unit :=
  (emit (st_text "1. 关键数据概览") ;;;
   rate <~ lift (positive_rate df) ;;
   emit (st_metric "总评论数" (MCount (len df))) ;;;
   emit (st_metric (snd rate) (MRate (fst rate))) ;;;
   top <~ lift (top_aspect df) ;;
   emit (st_metric "最热讨论点" (MText (aspect_name top))) ;;;
   emit (st_metric "模型分析维度" (MText "18 个")))%ui.

(** Lines 120-179.  Drawing a chart from a frame is taken to succeed; the
    frame operations before it raise as pandas does. *)
Definition chart_section (df : DataFrame) : ui unit :=
  (emit (st_text "2. 属性维度情感分布") ;;;
   records <~ lift (plot_data df) ;;
   let df_plot := frame_of_records records in
   emit (st_altair_chart df_plot) ;;;
   emit (st_text "💡 **图表解读**：绿色代表正面评价，红色代表负面评价。柱子越高，代表用户讨论该属性的次数越多。") ;;;
   emit (st_text "3. 用户关注点排行") ;;;
   ranking <~ lift (aspect_counts df_plot) ;;
   emit (st_altair_chart ranking) ;;;
   emit (st_text "4. 负面评价重灾区") ;;;
   neg <~ lift (neg_counts df_plot) ;;
   if negb (empty neg) then emit (st_altair_chart neg)
   else emit (st_success "暂无显著的负面评价聚集！"))%ui.

(** Lines 183-217 *)
Definition wordcloud_section (mode : wc_mode) (df : DataFrame) : ui unit :=
  (emit (st_text "5. 消费者观点词云") ;;;
   emit (st_text "展示评论中出现频率最高的词汇（基于评论正文）。") ;;;
   text <~ lift (text_content mode df) ;;
   wordcloud text)%ui.

(** Lines 220-235 *)
Definition table_section (df : DataFrame) : ui unit :=
  (emit (st_text "6. 原始数据查询") ;;;
   emit (st_text "您可以查看每一条评论的模型分析结果。") ;;;
   emit (st_dataframe df) ;;;
   emit (st_download_button df "analysis_report.csv"))%ui.

(** [df.columns] and the like on what [load_data] returned. *)
Definition loaded (df : option DataFrame) : ui DataFrame :=
  match df with
  | Some d => ret d
  | None => lift (Raise (AttributeError "columns"))
  end.

(** Lines 59-73 *)
Definition choose_file (s : session) : ui (option DataFrame) :=
  match uploaded_file s, default_file s with
  | Some f, _ =>
      let df := load_data f in
      (emit (st_sidebar_success "✅ 已加载上传文件") ;;; ret df)%ui
  | None, Some f =>
      let df := load_data f in
      (emit (st_sidebar_info "ℹ️ 已加载默认文件: final_analysis_result.csv") ;;;
       ret df)%ui
  | None, None =>
      (emit (st_error "未找到数据文件！请上传 CSV 或确保目录下有 final_analysis_result.csv") ;;;
       st_stop)%ui
  end.

(** The whole script (dividers and column layout left out). *)
Definition app (s : session) : ui unit :=
  (emit (st_text "🛠️ 系统控制面板") ;;;
   df0 <~ choose_file s ;;
   emit (st_text "数据筛选") ;;;
   df <~ loaded df0 ;;
   sidebar_filter (picked_dates s) df ;;;
   emit (st_text "电商商品评论观点挖掘与分析系统") ;;;
   emit (st_text "基于 BERT 深度学习模型的细粒度情感分析结果展示") ;;;
   kpi_section df ;;;
   chart_section df ;;;
   wordcloud_section (wc_option s) df ;;;
   table_section df)%ui.

End Script.

(** ** Reading the aggregates the way the specification words them *)

(** A row whose score is at least [k], at most [k]. *)
Definition score_at_least (k : Z) (r : record) : bool :=
  match field "score" r with
  | CInt z => (k <=? z)%Z
  | CFloat q => Qle_bool (inject_Z k) q
  | _ => false
  end.

Definition score_at_most (k : Z) (r : record) : bool :=
  match field "score" r with
  | CInt z => (z <=? k)%Z
  | CFloat q => Qle_bool q (inject_Z k)
  | _ => false
  end.

Definition count_rows (p : record -> bool) (df : DataFrame) : nat :=
  List.length (filter p (rows df)).

(** The input contract: a numeric column, the eighteen label columns. *)
Definition is_numeric (c : cell) : bool :=
  match c with
  | CInt _ | CFloat _ | CNaN => true
  | _ => false
  end.

Definition numeric_column (name : string) (df : DataFrame) : bool :=
  forallb (fun r => is_numeric (field name r)) (rows df).

Definition has_label_columns (df : DataFrame) : bool :=
  forallb (fun c => has_column c df) LABEL_COLUMNS.

(** The records one dimension contributes: one per sentiment that occurs. *)
Definition dimension_records (df : DataFrame) (col : string) : list record :=
  flat_map (fun s =>
              let n := value_count (map (field col) (rows df)) s in
              if (0 <? n)%nat then [plot_record col s n] else [])
           SENTIMENTS.

(** The mentioned-count of a dimension: the rows whose label differs from
    "未提及". *)
Definition mentioned (df : DataFrame) (col : string) : nat :=
  count_rows (fun r => cell_ne_str "未提及" (field col r)) df.

Definition in_label_set (c : cell) : bool :=
  cell_eq_str "正面" c || cell_eq_str "负面" c || cell_eq_str "中性" c
  || cell_eq_str "未提及" c.

(** The rows whose label for [col] is outside the four values. *)
Definition outside (df : DataFrame) (col : string) : nat :=
  count_rows (fun r => negb (in_label_set (field col r))) df.

Definition labels_closed (df : DataFrame) : bool :=
  forallb (fun col => forallb (fun r => in_label_set (field col r)) (rows df))
    LABEL_COLUMNS.

(** The total the ranking chart shows for a display name: the sum
    [groupby] takes over the records of that name. *)
Definition dimension_total (records : list record) (name : string) : Z :=
  sum_cells (map (field "评论数")
               (filter (fun r => cell_eq_str name (field "维度" r)) records)).

(** The columns of the frame built from the long-format aggregate. *)
Definition PLOT_COLUMNS : list string := ["维度"; "原始维度"; "情感"; "评论数"].

Definition is_plot_record (r : record) : Prop :=
  exists col s n, r = plot_record col s n.

(** A row of the ranking chart. *)
Definition ranking_row (records : list record) (name : string) : record :=
  [ ("维度", CStr name); ("评论数", CInt (dimension_total records name)) ].

(** [a] is not after [b] in descending order of the column [by_]. *)
Definition desc_ordered (by_ : string) (a b : record) : Prop :=
  desc_before (field by_ b) (field by_ a) = false.

Definition is_date_input (w : widget) : bool :=
  match w with
  | st_date_input _ _ => true
  | _ => false
  end.

(** The rate as the script computes it, in binary64. *)
Definition positive_rate_float (k n : Z) : float :=
  (PrimFloat.of_uint63 (Uint63.of_Z k) / PrimFloat.of_uint63 (Uint63.of_Z n)
   * 100)%float.

(** The text of a list of rows: their content, joined by blanks. *)
Definition content_text (str_float : Q -> string) (str_time : Z -> string)
  (l : list record) : string :=
  String.concat " "
    (map (fun r => astype_str str_float str_time (field "content" r)) l).

(** The rows the specification selects for a mode. *)
Definition selected_rows (mode : wc_mode) (df : DataFrame) : list record :=
  match mode with
  | WcAll => rows df
  | WcPositive =>
      if has_column "score" df then filter (score_at_least 4) (rows df) else rows df
  | WcNegative =>
      if has_column "score" df then filter (score_at_most 2) (rows df) else rows df
  end.

(** ** Sample inputs *)

Definition labels_all (l : string) : record :=
  map (fun c => (c, CStr l)) LABEL_COLUMNS.

Definition review (content : string) (score : Z) (l : string) : record :=
  ("content", CStr content) :: ("score", CInt score) :: labels_all l.

Definition scored_columns : list string :=
  "content" :: "score" :: LABEL_COLUMNS.

(** Ten reviews, six of them with a score of 4 or 5. *)
Definition ten_reviews : DataFrame :=
  {| columns := scored_columns;
     rows := [ review "a" 5 "正面"; review "b" 4 "正面"; review "c" 1 "负面";
               review "d" 5 "未提及"; review "e" 3 "中性"; review "f" 4 "正面";
               review "g" 2 "负面"; review "h" 5 "正面"; review "i" 3 "未提及";
               review "j" 4 "中性" ] |}.

(** Two reviews that mention no dimension at all. *)
Definition unmentioned_reviews : DataFrame :=
  {| columns := scored_columns;
     rows := [ review "好" 5 "未提及"; review "不错" 4 "未提及" ] |}.

(** Two reviews with high scores and no negative label. *)
Definition praise_only : DataFrame :=
  {| columns := scored_columns;
     rows := [ review "很好吃" 5 "正面"; review "还会再来" 4 "正面" ] |}.

(** A file with the header line only. *)
Definition header_only : DataFrame :=
  {| columns := scored_columns; rows := [] |}.

(** Three reviews with a time column, one of them not a date. *)
Definition timed_reviews : DataFrame :=
  {| columns := "time" :: scored_columns;
     rows := [ ("time", CStr "2024-01-02") :: review "a" 5 "正面";
               ("time", CStr "昨天") :: review "b" 2 "负面";
               ("time", CStr "2024-01-01") :: review "c" 4 "中性" ] |}.

(** Stand-ins for the library calls at the sample inputs. *)
Definition sample_to_datetime (c : cell) : option Z :=
  match c with
  | CStr s =>
      if String.eqb s "2024-01-01" then Some 1704067200000000000%Z
      else if String.eqb s "2024-01-02" then Some 1704153600000000000%Z
      else None
  | CInt z => Some z
  | CTime ns => Some ns
  | _ => None
  end.

Definition sample_str_float (q : Q) : string := "0.5".
Definition sample_str_time (ns : Z) : string := "2024-01-01 00:00:00".
Definition draw_succeeds (text : string) : option string := None.
Definition draw_fails (text : string) : option string :=
  Some "cannot open resource".

Definition is_download (w : widget) : bool :=
  match w with
  | st_download_button _ _ => true
  | _ => false
  end.

(** ** Further sample inputs *)

(** Reviews without a score column. *)
Definition unscored_reviews : DataFrame :=
  {| columns := "content" :: LABEL_COLUMNS;
     rows := [ ("content", CStr "a") :: labels_all "正面";
               ("content", CStr "b") :: labels_all "负面";
               ("content", CStr "c") :: labels_all "正面";
               ("content", CStr "d") :: labels_all "未提及" ] |}.

(** Reviews whose score column holds text. *)
Definition worded_scores : DataFrame :=
  {| columns := scored_columns;
     rows := [ review "a" 5 "正面";
               ("content", CStr "b") :: ("score", CStr "五星") :: labels_all "正面" ] |}.

(** Reviews in a file that lacks the column Service#Queue. *)
Definition queue_missing : DataFrame :=
  {| columns := filter (fun c => negb (String.eqb c "Service#Queue")) scored_columns;
     rows := [ review "a" 5 "正面"; review "b" 1 "负面" ] |}.

(** The table [load_data] makes of the sample with a time column. *)
Definition timed_loaded : DataFrame :=
  match load_data sample_to_datetime (Readable timed_reviews) with
  | Some df => df
  | None => timed_reviews
  end.

(** * Properties *)

(** ** Frames *)

Lemma select_mask_filter (p : record -> bool) (l : list record) :
  map fst (filter snd (combine l (map p l))) = filter p l.
Proof.
  induction l as [|r l IH]; simpl; [reflexivity|].
  destruct (p r); simpl; rewrite IH; reflexivity.
Qed.

Lemma select_rows_filter (p : record -> bool) (df : DataFrame) :
  rows (select df (map p (rows df))) = filter p (rows df).
Proof. unfold select; simpl. apply select_mask_filter. Qed.

Lemma select_length_le (l : list record) (mask : list bool) :
  (List.length (map fst (filter snd (combine l mask))) <= List.length l)%nat.
Proof.
  revert mask; induction l as [|r l IH]; intros [|b mask]; simpl; try lia.
  destruct b; simpl; specialize (IH mask); lia.
Qed.

Lemma select_len_le (df : DataFrame) (mask : list bool) :
  (len (select df mask) <= len df)%nat.
Proof. unfold len, select; simpl. apply select_length_le. Qed.

Lemma getitem_ok (df : DataFrame) (name : string) :
  has_column name df = true ->
  getitem df name = Ok (map (field name) (rows df)).
Proof. intros H; unfold getitem; rewrite H; reflexivity. Qed.

Lemma getitem_missing (df : DataFrame) (name : string) :
  has_column name df = false ->
  getitem df name = Raise (KeyError name).
Proof. intros H; unfold getitem; rewrite H; reflexivity. Qed.

Lemma mapM_cell_ge_numeric (k : Z) (l : list record) :
  forallb (fun r => is_numeric (field "score" r)) l = true ->
  mapM (cell_ge k) (map (field "score") l) = Ok (map (score_at_least k) l).
Proof.
  induction l as [|r l IH]; simpl; [reflexivity|].
  intros H; apply andb_true_iff in H; destruct H as [Hr Hl].
  rewrite (IH Hl); unfold score_at_least.
  destruct (field "score" r); simpl in *; try discriminate; reflexivity.
Qed.

Lemma mapM_cell_le_numeric (k : Z) (l : list record) :
  forallb (fun r => is_numeric (field "score" r)) l = true ->
  mapM (cell_le k) (map (field "score") l) = Ok (map (score_at_most k) l).
Proof.
  induction l as [|r l IH]; simpl; [reflexivity|].
  intros H; apply andb_true_iff in H; destruct H as [Hr Hl].
  rewrite (IH Hl); unfold score_at_most.
  destruct (field "score" r); simpl in *; try discriminate; reflexivity.
Qed.

(** ** The positive rate *)

Lemma truediv_nonzero (k n : nat) :
  n <> O ->
  truediv k n = Ok (inject_Z (Z.of_nat k) / inject_Z (Z.of_nat n))%Q.
Proof. destruct n; [congruence | reflexivity]. Qed.

Lemma truediv_range (k n : nat) (q : Q) :
  (k <= n)%nat -> truediv k n = Ok q -> (0 <= q * 100 /\ q * 100 <= 100)%Q.
Proof.
  intros Hk H; destruct n as [|n]; simpl in H; [discriminate|].
  injection H as <-.
  set (d := Z.of_nat (S n)).
  assert (Hd : (0 < d)%Z) by (unfold d; lia).
  assert (Hkd : (Z.of_nat k <= d)%Z) by (unfold d; lia).
  assert (H0 : (0 <= inject_Z (Z.of_nat k) / inject_Z d)%Q).
  { apply Qle_shift_div_l.
    - change 0%Q with (inject_Z 0); rewrite <- Zlt_Qlt; exact Hd.
    - rewrite Qmult_0_l. change 0%Q with (inject_Z 0); rewrite <- Zle_Qle; lia. }
  assert (H1 : (inject_Z (Z.of_nat k) / inject_Z d <= 1)%Q).
  { apply Qle_shift_div_r.
    - change 0%Q with (inject_Z 0); rewrite <- Zlt_Qlt; exact Hd.
    - rewrite Qmult_1_l. rewrite <- Zle_Qle; exact Hkd. }
  split.
  - apply Qmult_le_0_compat; [exact H0 | discriminate].
  - setoid_replace (100:Q) with (1 * 100)%Q at 2 by ring.
    apply Qmult_le_compat_r; [exact H1 | discriminate].
Qed.

Lemma positive_rate_range (df : DataFrame) (q : Q) (label : string) :
  positive_rate df = Ok (q, label) -> (0 <= q /\ q <= 100)%Q.
Proof.
  unfold positive_rate.
  destruct (has_column "score" df).
  - destruct (getitem df "score") as [score|]; simpl; [|discriminate].
    destruct (mapM (cell_ge 4) score) as [mask|]; simpl; [|discriminate].
    destruct (truediv _ _) as [frac|] eqn:Hd; simpl; [|discriminate].
    intros H; injection H as <- _.
    eapply truediv_range; [|exact Hd]. apply select_len_le.
  - destruct (getitem df "Food#Recommend") as [rec|]; simpl; [|discriminate].
    destruct (truediv _ _) as [frac|] eqn:Hd; simpl; [|discriminate].
    intros H; injection H as <- _.
    eapply truediv_range; [|exact Hd]. apply select_len_le.
Qed.

Lemma positive_rate_scored (df : DataFrame) :
  has_column "score" df = true ->
  numeric_column "score" df = true ->
  positive_rate df =
    (frac <- truediv (count_rows (score_at_least 4) df) (len df) ;;
     Ok ((frac * 100)%Q, "五星好评率")).
Proof.
  intros Hc Hn. unfold positive_rate. rewrite Hc, (getitem_ok _ _ Hc). simpl.
  rewrite (mapM_cell_ge_numeric 4 _ Hn). simpl.
  unfold len at 1. rewrite select_rows_filter. reflexivity.
Qed.

Lemma mapM_length {A B : Type} (f : A -> result B) (l : list A) (bs : list B) :
  mapM f l = Ok bs -> List.length bs = List.length l.
Proof.
  revert bs; induction l as [|a l IH]; simpl; intros bs H.
  - injection H as <-; reflexivity.
  - destruct (f a); simpl in H; [|discriminate].
    destruct (mapM f l) as [bs'|]; simpl in H; [|discriminate].
    injection H as <-; simpl; rewrite (IH bs' eq_refl); reflexivity.
Qed.

Lemma select_length_count (l : list record) (mask : list bool) :
  List.length mask = List.length l ->
  List.length (map fst (filter snd (combine l mask))) = count_occ bool_dec mask true.
Proof.
  revert mask; induction l as [|r l IH]; intros [|b mask]; simpl; intros H;
    try discriminate; [reflexivity|].
  injection H as H. destruct b; simpl; rewrite (IH mask H); reflexivity.
Qed.

(** With a score column, the rate is a function of that column alone. *)
Lemma positive_rate_of_scores (df : DataFrame) :
  has_column "score" df = true ->
  positive_rate df =
    (mask <- mapM (cell_ge 4) (map (field "score") (rows df)) ;;
     frac <- truediv (count_occ bool_dec mask true)
               (List.length (map (field "score") (rows df))) ;;
     Ok ((frac * 100)%Q, "五星好评率")).
Proof.
  intros Hc. unfold positive_rate. rewrite Hc, (getitem_ok _ _ Hc). simpl.
  destruct (mapM _ _) as [mask|] eqn:Hm; simpl; [|reflexivity].
  apply mapM_length in Hm. rewrite length_map in Hm.
  unfold len, select; simpl. rewrite (select_length_count _ _ Hm), length_map.
  reflexivity.
Qed.

Lemma mapM_cell_ge_ok (k : Z) (l : list record) (mask : list bool) :
  mapM (cell_ge k) (map (field "score") l) = Ok mask ->
  forallb (fun r => is_numeric (field "score" r)) l = true.
Proof.
  revert mask; induction l as [|r l IH]; simpl; intros mask H; [reflexivity|].
  destruct (field "score" r); simpl in *; try discriminate;
    destruct (mapM _ _) as [bs|]; simpl in H; try discriminate;
    exact (IH bs eq_refl).
Qed.

Lemma mapM_cell_le_ok (k : Z) (l : list record) (mask : list bool) :
  mapM (cell_le k) (map (field "score") l) = Ok mask ->
  forallb (fun r => is_numeric (field "score" r)) l = true.
Proof.
  revert mask; induction l as [|r l IH]; simpl; intros mask H; [reflexivity|].
  destruct (field "score" r); simpl in *; try discriminate;
    destruct (mapM _ _) as [bs|]; simpl in H; try discriminate;
    exact (IH bs eq_refl).
Qed.

(** When the rate is computed from a score column, that column is
    numeric. *)
Lemma positive_rate_ok_numeric (df : DataFrame) (q : Q) (label : string) :
  has_column "score" df = true ->
  positive_rate df = Ok (q, label) ->
  numeric_column "score" df = true.
Proof.
  intros Hc. unfold positive_rate. rewrite Hc, (getitem_ok _ _ Hc). cbn [rbind].
  destruct (mapM _ _) as [mask|] eqn:Hm; [|discriminate].
  intros _. exact (mapM_cell_ge_ok 4 _ _ Hm).
Qed.

(** C1: on a non-empty table, whenever the positive rate is computed it
    lies between 0 and 100, and with a score column it is 100 times the
    fraction of rows whose score is at least 4 (60 for six rows of ten),
    under the label of the score-based metric.  It is computed on every
    table that meets the input contract: a score column, when there is one,
    is numeric, and without one the recommendation column is there.  With a
    score column the other columns do not matter: any table with the same
    score column has the same rate. *)
Theorem positive_rate_score_based (df : DataFrame) :
  rows df <> [] ->
  (forall q label,
     positive_rate df = Ok (q, label) ->
     (0 <= q /\ q <= 100)%Q /\
     (has_column "score" df = true ->
        label = "五星好评率" /\
        q = (inject_Z (Z.of_nat (count_rows (score_at_least 4) df))
             / inject_Z (Z.of_nat (len df)) * 100)%Q /\
        (len df = 10%nat -> count_rows (score_at_least 4) df = 6%nat ->
           (q == 60)%Q))) /\
  ((has_column "score" df = true -> numeric_column "score" df = true) ->
   (has_column "score" df = false -> has_column "Food#Recommend" df = true) ->
   exists q label, positive_rate df = Ok (q, label)) /\
  (has_column "score" df = true ->
   forall df', has_column "score" df' = true ->
     map (field "score") (rows df') = map (field "score") (rows df) ->
     positive_rate df' = positive_rate df).
Proof.
  intros Hne.
  assert (Hlen : len df <> O).
  { unfold len; destruct (rows df); simpl; congruence. }
  split; [|split].
  - intros q label H.
    split; [eapply positive_rate_range; exact H|].
    intros Hc.
    pose proof (positive_rate_ok_numeric df q label Hc H) as Hnum.
    rewrite (positive_rate_scored df Hc Hnum) in H.
    rewrite (truediv_nonzero _ _ Hlen) in H. cbn [rbind] in H.
    injection H as <- <-.
    split; [reflexivity|]. split; [reflexivity|].
    intros H10 H6. rewrite H10, H6. reflexivity.
  - intros Hnum Hrec.
    destruct (has_column "score" df) eqn:Hc.
    + rewrite (positive_rate_scored df Hc (Hnum eq_refl)).
      rewrite (truediv_nonzero _ _ Hlen). cbn [rbind].
      eexists; eexists; reflexivity.
    + unfold positive_rate. rewrite Hc, (getitem_ok _ _ (Hrec eq_refl)).
      cbn [rbind]. rewrite (truediv_nonzero _ _ Hlen). cbn [rbind].
      eexists; eexists; reflexivity.
  - intros Hc df' Hc' Hs.
    rewrite (positive_rate_of_scores df' Hc'), (positive_rate_of_scores df Hc), Hs.
    reflexivity.
Qed.

Lemma positive_rate_score_based_witness :
  exists q,
    positive_rate ten_reviews = Ok (q, "五星好评率") /\
    (0 <= q /\ q <= 100)%Q /\ (q == 60)%Q.
Proof.
  destruct (positive_rate_score_based ten_reviews) as (Hok & Hruns & _).
  - discriminate.
  - destruct Hruns as (q & label & Hq).
    + intros _; vm_compute; reflexivity.
    + intros H; vm_compute in H; discriminate H.
    + destruct (Hok q label Hq) as (Hrange & Hscore).
      destruct (Hscore eq_refl) as (-> & _ & H60).
      exists q. split; [exact Hq|]. split; [exact Hrange|].
      apply H60; vm_compute; reflexivity.
Defined.

(** ** The most discussed dimension *)

Lemma LABEL_COLUMNS_NoDup : NoDup LABEL_COLUMNS.
Proof.
  replace LABEL_COLUMNS with (nodup string_dec LABEL_COLUMNS) by (vm_compute; reflexivity).
  apply NoDup_nodup.
Qed.

Lemma has_label_columns_In (df : DataFrame) (c : string) :
  has_label_columns df = true -> In c LABEL_COLUMNS -> has_column c df = true.
Proof.
  unfold has_label_columns; intros H Hc.
  rewrite forallb_forall in H. apply H; exact Hc.
Qed.

Lemma dict_set_fresh {V : Type} (d : list (string * V)) (k : string) (v : V) :
  ~ In k (map fst d) -> dict_set d k v = (d ++ [(k, v)])%list.
Proof.
  induction d as [|[k' v'] d IH]; simpl; intros H; [reflexivity|].
  destruct (String.eqb_spec k' k) as [->|Hne]; [tauto|].
  rewrite IH; [reflexivity | tauto].
Qed.

Lemma mention_count_select (df : DataFrame) (col : string) :
  len (select df (map (cell_ne_str "未提及") (map (field col) (rows df))))
  = mentioned df col.
Proof.
  unfold len, mentioned, count_rows. rewrite map_map.
  rewrite (select_rows_filter (fun r => cell_ne_str "未提及" (field col r))).
  reflexivity.
Qed.

Lemma mention_counts_spec (df : DataFrame) (cols : list string) :
  forall counts,
    NoDup cols ->
    (forall c, In c cols -> ~ In c (map fst counts)) ->
    (forall c, In c cols -> has_column c df = true) ->
    mention_counts df cols counts
    = Ok (counts ++ map (fun c => (c, mentioned df c)) cols)%list.
Proof.
  induction cols as [|col cols IH]; intros counts Hnd Hfresh Hcols; simpl.
  - rewrite app_nil_r; reflexivity.
  - rewrite (getitem_ok _ _ (Hcols col (or_introl eq_refl))). simpl.
    rewrite mention_count_select.
    rewrite (dict_set_fresh counts col _ (Hfresh col (or_introl eq_refl))).
    inversion Hnd as [|? ? Hnotin Hnd']; subst.
    rewrite IH.
    + rewrite <- app_assoc; reflexivity.
    + exact Hnd'.
    + intros c Hc. rewrite map_app, in_app_iff; simpl.
      intros [Hin|[->|[]]].
      * exact (Hfresh c (or_intror Hc) Hin).
      * exact (Hnotin Hc).
    + intros c Hc; apply Hcols; right; exact Hc.
Qed.

(** What [max] returns on the items [(c, f c)]: it splits the keys into
    those before it, all strictly smaller, and those after it, none
    larger. *)
Lemma max_loop_first_maximal (f : string -> nat) (l : list string) :
  forall b,
    exists pre post,
      (b :: l = pre ++ max_loop b (f b) (map (fun c => (c, f c)) l) :: post)%list /\
      (forall c, In c pre ->
         (f c < f (max_loop b (f b) (map (fun c => (c, f c)) l)))%nat) /\
      (forall c, In c post ->
         (f c <= f (max_loop b (f b) (map (fun c => (c, f c)) l)))%nat).
Proof.
  induction l as [|c l IH]; intros b; simpl.
  - exists [], []; repeat split; simpl; intros ? [].
  - destruct (Nat.ltb_spec (f b) (f c)) as [Hlt|Hge].
    + destruct (IH c) as (pre & post & Heq & Hpre & Hpost).
      set (top := max_loop c (f c) (map (fun c => (c, f c)) l)) in *.
      assert (Hc : (f c <= f top)%nat).
      { destruct pre as [|p pre]; simpl in Heq; injection Heq as Hh Ht.
        - rewrite <- Hh; lia.
        - subst p. specialize (Hpre c (or_introl eq_refl)). lia. }
      exists (b :: pre), post; repeat split.
      * simpl; rewrite <- Heq; reflexivity.
      * intros x [<-|Hx]; [lia | apply Hpre; exact Hx].
      * exact Hpost.
    + destruct (IH b) as (pre & post & Heq & Hpre & Hpost).
      set (top := max_loop b (f b) (map (fun c => (c, f c)) l)) in *.
      destruct pre as [|p pre]; simpl in Heq; injection Heq as Hh Ht.
      * exists [], (c :: post); repeat split.
        -- simpl; rewrite <- Hh, Ht; reflexivity.
        -- intros ? [].
        -- intros x [<-|Hx]; [rewrite <- Hh; lia | apply Hpost; exact Hx].
      * subst p. exists (b :: c :: pre), post; repeat split.
        -- simpl; rewrite Ht; reflexivity.
        -- intros x [<-|[<-|Hx]].
           ++ apply Hpre; left; reflexivity.
           ++ specialize (Hpre b (or_introl eq_refl)). lia.
           ++ apply Hpre; right; exact Hx.
        -- exact Hpost.
Qed.

Lemma max_key_first_maximal (df : DataFrame) (cols : list string) :
  cols <> [] ->
  NoDup cols ->
  (forall c, In c cols -> has_column c df = true) ->
  exists top pre post,
    (counts <- mention_counts df cols [] ;; max_key counts) = Ok top /\
    (cols = pre ++ top :: post)%list /\
    (forall c, In c cols -> (mentioned df c <= mentioned df top)%nat) /\
    (forall c, In c pre -> (mentioned df c < mentioned df top)%nat).
Proof.
  intros Hne Hnd Hcols.
  rewrite (mention_counts_spec df cols [] Hnd (fun c _ H => H) Hcols).
  destruct cols as [|b l]; [congruence|].
  cbn [rbind app map max_key].
  destruct (max_loop_first_maximal (mentioned df) l b)
    as (pre & post & Heq & Hpre & Hpost).
  eexists; exists pre, post; split; [reflexivity|].
  split; [exact Heq|]. split; [|exact Hpre].
  intros c Hc. rewrite Heq in Hc. apply in_app_iff in Hc.
  destruct Hc as [Hc|[<-|Hc]].
  - specialize (Hpre c Hc); lia.
  - lia.
  - apply Hpost; exact Hc.
Qed.

(** C2: on a table with the eighteen label columns, the top-discussed
    aspect is a dimension of the fixed list whose mentioned-count is
    maximal, and every dimension listed before it has a strictly smaller
    count: among tied dimensions the first of the list is chosen. *)
Theorem top_aspect_first_maximal (df : DataFrame) :
  has_label_columns df = true ->
  exists top pre post,
    top_aspect df = Ok top /\
    (LABEL_COLUMNS = pre ++ top :: post)%list /\
    (forall c, In c LABEL_COLUMNS -> (mentioned df c <= mentioned df top)%nat) /\
    (forall c, In c pre -> (mentioned df c < mentioned df top)%nat).
Proof.
  intros Hcols. unfold top_aspect.
  apply max_key_first_maximal.
  - intros H; apply (f_equal (@List.length string)) in H; vm_compute in H; discriminate H.
  - exact LABEL_COLUMNS_NoDup.
  - intros c Hc; apply has_label_columns_In; assumption.
Qed.

Lemma top_aspect_first_maximal_witness :
  exists top pre post,
    top_aspect ten_reviews = Ok top /\
    (LABEL_COLUMNS = pre ++ top :: post)%list /\
    (forall c, In c LABEL_COLUMNS ->
       (mentioned ten_reviews c <= mentioned ten_reviews top)%nat) /\
    (forall c, In c pre -> (mentioned ten_reviews c < mentioned ten_reviews top)%nat).
Proof.
  apply (top_aspect_first_maximal ten_reviews). vm_compute. reflexivity.
Defined.

(** ** The long-format aggregate *)

Lemma sentiment_loop_app (col : string) (labels : list cell) (sents : list string) :
  forall acc,
    sentiment_loop col labels sents acc
    = (acc ++ flat_map (fun s =>
                 let n := value_count labels s in
                 if (0 <? n)%nat then [plot_record col s n] else []) sents)%list.
Proof.
  induction sents as [|s sents IH]; intros acc; simpl.
  - rewrite app_nil_r; reflexivity.
  - rewrite IH. destruct (0 <? value_count labels s)%nat; simpl.
    + rewrite <- app_assoc; reflexivity.
    + reflexivity.
Qed.

Lemma plot_data_loop_spec (df : DataFrame) (cols : list string) :
  forall acc,
    (forall c, In c cols -> has_column c df = true) ->
    plot_data_loop df cols acc
    = Ok (acc ++ flat_map (dimension_records df) cols)%list.
Proof.
  induction cols as [|col cols IH]; intros acc Hcols; cbn [plot_data_loop flat_map].
  - rewrite app_nil_r; reflexivity.
  - rewrite (getitem_ok _ _ (Hcols col (or_introl eq_refl))). cbn [rbind].
    rewrite IH by (intros c Hc; apply Hcols; right; exact Hc).
    rewrite sentiment_loop_app, <- app_assoc. reflexivity.
Qed.

Lemma plot_data_spec (df : DataFrame) :
  has_label_columns df = true ->
  plot_data df = Ok (flat_map (dimension_records df) LABEL_COLUMNS).
Proof.
  intros H. unfold plot_data.
  rewrite plot_data_loop_spec; [reflexivity|].
  intros c Hc; apply has_label_columns_In; assumption.
Qed.

Lemma dimension_records_In (df : DataFrame) (col : string) (r : record) :
  In r (dimension_records df col) ->
  exists s, In s SENTIMENTS /\
            (0 < value_count (map (field col) (rows df)) s)%nat /\
            r = plot_record col s (value_count (map (field col) (rows df)) s).
Proof.
  unfold dimension_records. rewrite in_flat_map.
  intros (s & Hs & Hr). exists s; split; [exact Hs|].
  cbv zeta in Hr.
  destruct (Nat.ltb_spec 0 (value_count (map (field col) (rows df)) s)) as [Hlt|Hge].
  - destruct Hr as [<-|[]]. split; [exact Hlt | reflexivity].
  - destruct Hr.
Qed.

(** C4: on a table with the eighteen label columns the long-format
    aggregate is computed, and each of its entries belongs to one of the
    fixed dimensions and to one of the sentiments 正面, 负面, 中性, and
    carries the number of rows of that dimension with that sentiment, which
    is never 0. *)
Theorem plot_data_no_zero_count (df : DataFrame) :
  has_label_columns df = true ->
  exists records,
    plot_data df = Ok records /\
    forall r, In r records ->
      exists col s n,
        r = plot_record col s n /\
        In col LABEL_COLUMNS /\
        (s = "正面" \/ s = "负面" \/ s = "中性") /\
        n = count_rows (fun r => cell_eq_str s (field col r)) df /\
        (0 < n)%nat /\
        field "情感" r = CStr s /\
        field "评论数" r = CInt (Z.of_nat n).
Proof.
  intros H. eexists; split; [apply plot_data_spec; exact H|].
  intros r Hr. apply in_flat_map in Hr. destruct Hr as (col & Hcol & Hr).
  apply dimension_records_In in Hr. destruct Hr as (s & Hs & Hpos & ->).
  exists col, s, (value_count (map (field col) (rows df)) s).
  split; [reflexivity|]. split; [exact Hcol|].
  split; [simpl in Hs; intuition|].
  split.
  - unfold value_count, count_rows.
    clear. induction (rows df) as [|r l IH]; simpl; [reflexivity|].
    destruct (cell_eq_str s (field col r)); simpl; rewrite IH; reflexivity.
  - split; [exact Hpos|]. split; reflexivity.
Qed.

Lemma plot_data_no_zero_count_witness :
  exists records,
    plot_data ten_reviews = Ok records /\
    forall r, In r records ->
      exists col s n,
        r = plot_record col s n /\
        In col LABEL_COLUMNS /\
        (s = "正面" \/ s = "负面" \/ s = "中性") /\
        n = count_rows (fun r => cell_eq_str s (field col r)) ten_reviews /\
        (0 < n)%nat /\
        field "情感" r = CStr s /\
        field "评论数" r = CInt (Z.of_nat n).
Proof.
  apply (plot_data_no_zero_count ten_reviews). vm_compute. reflexivity.
Defined.

(** ** Totals of the ranking chart against the mentioned-count *)

Lemma label_cell_cases (c : cell) :
  Nat.b2n (cell_ne_str "未提及" c)
  = (Nat.b2n (cell_eq_str "正面" c) + Nat.b2n (cell_eq_str "负面" c)
     + Nat.b2n (cell_eq_str "中性" c) + Nat.b2n (negb (in_label_set c)))%nat.
Proof.
  destruct c as [z|q| |s|t| ]; try reflexivity.
  unfold in_label_set, cell_ne_str, cell_eq_str.
  destruct (String.eqb_spec s "正面") as [->|H1]; [vm_compute; reflexivity|].
  destruct (String.eqb_spec s "负面") as [->|H2]; [vm_compute; reflexivity|].
  destruct (String.eqb_spec s "中性") as [->|H3]; [vm_compute; reflexivity|].
  destruct (String.eqb_spec s "未提及") as [->|H4]; reflexivity.
Qed.

Lemma length_filter_b2n {A : Type} (p : A -> bool) (l : list A) :
  List.length (filter p l) = fold_right (fun a acc => (Nat.b2n (p a) + acc)%nat) O l.
Proof.
  induction l as [|a l IH]; simpl; [reflexivity|].
  destruct (p a); simpl; rewrite IH; reflexivity.
Qed.

Lemma mentioned_split (df : DataFrame) (col : string) :
  mentioned df col
  = (value_count (map (field col) (rows df)) "正面"
     + value_count (map (field col) (rows df)) "负面"
     + value_count (map (field col) (rows df)) "中性"
     + outside df col)%nat.
Proof.
  unfold mentioned, outside, count_rows, value_count.
  rewrite !length_filter_b2n.
  induction (rows df) as [|r l IH]; simpl; [reflexivity|].
  rewrite IH, (label_cell_cases (field col r)). lia.
Qed.

Lemma field_dim_plot_record (col s : string) (n : nat) :
  field "维度" (plot_record col s n) = CStr (aspect_name col).
Proof. reflexivity. Qed.

Lemma field_count_plot_record (col s : string) (n : nat) :
  field "评论数" (plot_record col s n) = CInt (Z.of_nat n).
Proof. reflexivity. Qed.

Lemma dimension_records_total (df : DataFrame) (col : string) :
  sum_cells (map (field "评论数") (dimension_records df col))
  = Z.of_nat (value_count (map (field col) (rows df)) "正面"
              + value_count (map (field col) (rows df)) "负面"
              + value_count (map (field col) (rows df)) "中性").
Proof.
  unfold dimension_records, SENTIMENTS. cbn [flat_map]. cbv zeta.
  generalize (value_count (map (field col) (rows df)) "正面").
  generalize (value_count (map (field col) (rows df)) "负面").
  generalize (value_count (map (field col) (rows df)) "中性").
  intros a b c.
  destruct (Nat.ltb_spec 0 c); destruct (Nat.ltb_spec 0 b);
    destruct (Nat.ltb_spec 0 a);
    simpl; lia.
Qed.

Lemma aspect_name_injective (c c' : string) :
  In c LABEL_COLUMNS -> In c' LABEL_COLUMNS ->
  aspect_name c = aspect_name c' -> c = c'.
Proof.
  assert (H : forallb (fun a => forallb (fun b =>
                implb (String.eqb (aspect_name a) (aspect_name b)) (String.eqb a b))
              LABEL_COLUMNS) LABEL_COLUMNS = true) by (vm_compute; reflexivity).
  intros Hc Hc' Heq. rewrite forallb_forall in H.
  specialize (H c Hc). rewrite forallb_forall in H. specialize (H c' Hc').
  rewrite Heq, String.eqb_refl in H. simpl in H.
  apply String.eqb_eq; exact H.
Qed.

Lemma filter_dimension_records (df : DataFrame) (name c : string) :
  filter (fun r => cell_eq_str name (field "维度" r)) (dimension_records df c)
  = if String.eqb (aspect_name c) name then dimension_records df c else [].
Proof.
  assert (H : forall r, In r (dimension_records df c) ->
                cell_eq_str name (field "维度" r) = String.eqb (aspect_name c) name).
  { intros r Hr. apply dimension_records_In in Hr.
    destruct Hr as (s & _ & _ & ->). reflexivity. }
  induction (dimension_records df c) as [|r l IH]; simpl.
  - destruct (String.eqb _ _); reflexivity.
  - rewrite (H r (or_introl eq_refl)).
    rewrite IH by (intros r' Hr'; apply H; right; exact Hr').
    destruct (String.eqb _ _); reflexivity.
Qed.

Lemma filter_records_of (df : DataFrame) (col : string) (cols : list string) :
  NoDup cols -> In col cols ->
  (forall c, In c cols -> aspect_name c = aspect_name col -> c = col) ->
  filter (fun r => cell_eq_str (aspect_name col) (field "维度" r))
    (flat_map (dimension_records df) cols)
  = dimension_records df col.
Proof.
  intros Hnd Hin Hinj.
  assert (Hout : forall l, ~ In col l ->
            (forall c, In c l -> aspect_name c = aspect_name col -> c = col) ->
            filter (fun r => cell_eq_str (aspect_name col) (field "维度" r))
              (flat_map (dimension_records df) l) = []).
  { induction l as [|c l IH]; intros Hn Hi; simpl; [reflexivity|].
    rewrite filter_app, filter_dimension_records.
    destruct (String.eqb_spec (aspect_name c) (aspect_name col)) as [He|He].
    - exfalso; apply Hn; left; apply Hi; [left; reflexivity | exact He].
    - simpl; apply IH; [intros Hx; apply Hn; right; exact Hx |].
      intros; apply Hi; [right|]; assumption. }
  induction cols as [|c cols IH]; simpl; [destruct Hin|].
  rewrite filter_app, filter_dimension_records.
  inversion Hnd as [|? ? Hnotin Hnd']; subst.
  destruct (String.eqb_spec (aspect_name c) (aspect_name col)) as [He|He].
  - assert (c = col) by (apply Hinj; [left; reflexivity | exact He]); subst c.
    rewrite Hout; [apply app_nil_r | exact Hnotin |].
    intros; apply Hinj; [right|]; assumption.
  - destruct Hin as [->|Hin]; [congruence|].
    simpl; apply IH; [exact Hnd' | exact Hin |].
    intros; apply Hinj; [right|]; assumption.
Qed.

Lemma dimension_total_mentioned (df : DataFrame) (col : string) :
  In col LABEL_COLUMNS ->
  (dimension_total (flat_map (dimension_records df) LABEL_COLUMNS) (aspect_name col)
   + Z.of_nat (outside df col))%Z
  = Z.of_nat (mentioned df col).
Proof.
  intros Hc. unfold dimension_total.
  rewrite filter_records_of.
  - rewrite dimension_records_total, mentioned_split. lia.
  - exact LABEL_COLUMNS_NoDup.
  - exact Hc.
  - intros c Hin He; apply aspect_name_injective; assumption.
Qed.

(** ** Sorting and grouping *)

Lemma insert_desc_In (by_ : string) (r x : record) (l : list record) :
  In x (insert_desc by_ r l) <-> x = r \/ In x l.
Proof.
  induction l as [|r' l IH]; simpl; [intuition|].
  destruct (desc_before _ _); simpl; [rewrite IH|]; intuition.
Qed.

Lemma sort_desc_In (by_ : string) (x : record) (l : list record) :
  In x (fold_right (insert_desc by_) [] l) <-> In x l.
Proof.
  induction l as [|r l IH]; simpl; [tauto|].
  rewrite insert_desc_In, IH. intuition.
Qed.

Lemma insert_desc_length (by_ : string) (r : record) (l : list record) :
  List.length (insert_desc by_ r l) = S (List.length l).
Proof.
  induction l as [|r' l IH]; simpl; [reflexivity|].
  destruct (desc_before _ _); simpl; [rewrite IH|]; reflexivity.
Qed.

Lemma sort_desc_length (by_ : string) (l : list record) :
  List.length (fold_right (insert_desc by_) [] l) = List.length l.
Proof.
  induction l as [|r l IH]; simpl; [reflexivity|].
  rewrite insert_desc_length, IH; reflexivity.
Qed.

Lemma desc_before_asym (a b : cell) :
  desc_before a b = true -> desc_before b a = false.
Proof.
  unfold desc_before.
  destruct (cell_value a) as [x|], (cell_value b) as [y|]; try reflexivity;
    try discriminate.
  intros H. apply negb_true_iff in H. apply negb_false_iff.
  apply Qle_bool_iff.
  destruct (Qlt_le_dec y x) as [Hlt|Hle].
  - apply Qlt_le_weak; exact Hlt.
  - apply Qle_bool_iff in Hle. congruence.
Qed.

Lemma insert_desc_sorted (by_ : string) (r : record) (l : list record) :
  Sorted (desc_ordered by_) l -> Sorted (desc_ordered by_) (insert_desc by_ r l).
Proof.
  induction l as [|r' l IH]; intros Hs; simpl.
  - constructor; constructor.
  - destruct (desc_before (field by_ r') (field by_ r)) eqn:Hb.
    + inversion Hs as [|? ? Hs' Hhd]; subst.
      constructor; [apply IH; exact Hs'|].
      destruct l as [|r'' l]; simpl.
      * constructor. unfold desc_ordered. apply desc_before_asym; exact Hb.
      * destruct (desc_before (field by_ r'') (field by_ r)).
        -- inversion Hhd; subst. constructor; assumption.
        -- constructor. unfold desc_ordered. apply desc_before_asym; exact Hb.
    + constructor; [exact Hs|]. constructor. exact Hb.
Qed.

Lemma sort_desc_sorted (by_ : string) (l : list record) :
  Sorted (desc_ordered by_) (fold_right (insert_desc by_) [] l).
Proof.
  induction l as [|r l IH]; simpl; [constructor|].
  apply insert_desc_sorted; exact IH.
Qed.

Lemma firstn_sorted {A : Type} (R : A -> A -> Prop) (n : nat) (l : list A) :
  Sorted R l -> Sorted R (firstn n l).
Proof.
  revert l; induction n as [|n IH]; intros l Hs; simpl; [constructor|].
  destruct l as [|a l]; [constructor|].
  inversion Hs as [|? ? Hs' Hhd]; subst.
  constructor; [apply IH; exact Hs'|].
  destruct l as [|b l]; destruct n; simpl; try constructor.
  inversion Hhd; assumption.
Qed.

Lemma firstn_subset {A : Type} (n : nat) (l : list A) (x : A) :
  In x (firstn n l) -> In x l.
Proof.
  revert l; induction n as [|n IH]; intros [|a l]; simpl; try tauto.
  intros [->|H]; [left; reflexivity | right; apply IH; exact H].
Qed.

Lemma insert_key_In (k x : string) (l : list string) :
  In x (insert_key k l) <-> x = k \/ In x l.
Proof.
  induction l as [|k' l IH]; simpl; [intuition|].
  destruct (String.eqb_spec k' k) as [->|Hne]; [simpl; intuition|].
  destruct (String.ltb k' k); simpl; [rewrite IH|]; intuition.
Qed.

Lemma group_keys_In (x : string) (keys : list cell) :
  In x (group_keys keys) <-> In (CStr x) keys.
Proof.
  induction keys as [|c keys IH]; simpl; [tauto|].
  destruct c; try (rewrite IH; intuition discriminate).
  rewrite insert_key_In, IH. intuition congruence.
Qed.

Lemma frame_of_records_columns (records : list record) :
  records <> [] ->
  (forall r, In r records -> is_plot_record r) ->
  columns (frame_of_records records) = PLOT_COLUMNS.
Proof.
  intros Hne Hall. unfold frame_of_records; cbn [columns].
  assert (Hkeep : forall l, (forall r, In r l -> is_plot_record r) ->
            fold_left (fun cols r => fold_left add_key r cols) l PLOT_COLUMNS
            = PLOT_COLUMNS).
  { induction l as [|r l IH]; intros Hl; [reflexivity|].
    cbn [fold_left]. destruct (Hl r (or_introl eq_refl)) as (c & s & n & ->).
    change (fold_left add_key (plot_record c s n) PLOT_COLUMNS) with PLOT_COLUMNS.
    apply IH; intros r' Hr'; apply Hl; right; exact Hr'. }
  destruct records as [|r l]; [congruence|].
  cbn [fold_left]. destruct (Hall r (or_introl eq_refl)) as (c & s & n & ->).
  change (fold_left add_key (plot_record c s n) []) with PLOT_COLUMNS.
  apply Hkeep; intros r' Hr'; apply Hall; right; exact Hr'.
Qed.

Lemma frame_of_no_records : frame_of_records [] = {| columns := []; rows := [] |}.
Proof. reflexivity. Qed.

Lemma plot_data_records (df : DataFrame) (r : record) :
  In r (flat_map (dimension_records df) LABEL_COLUMNS) -> is_plot_record r.
Proof.
  intros Hr. apply in_flat_map in Hr. destruct Hr as (col & _ & Hr).
  apply dimension_records_In in Hr. destruct Hr as (s & _ & _ & ->).
  exists col, s, (value_count (map (field col) (rows df)) s); reflexivity.
Qed.

Lemma aspect_counts_spec (df_plot : DataFrame) :
  columns df_plot = PLOT_COLUMNS ->
  aspect_counts df_plot
  = Ok {| columns := ["维度"; "评论数"];
          rows := fold_right (insert_desc "评论数") []
                    (map (ranking_row (rows df_plot))
                       (group_keys (map (field "维度") (rows df_plot)))) |}.
Proof.
  intros Hcols. unfold aspect_counts, groupby_sum.
  rewrite !getitem_ok by (unfold has_column; rewrite Hcols; reflexivity).
  cbn [rbind]. unfold sort_values_desc.
  rewrite getitem_ok by reflexivity.
  reflexivity.
Qed.

Lemma aspect_counts_no_columns (df_plot : DataFrame) :
  columns df_plot = [] ->
  aspect_counts df_plot = Raise (KeyError "维度").
Proof.
  intros Hcols. unfold aspect_counts, groupby_sum.
  rewrite getitem_missing by (unfold has_column; rewrite Hcols; reflexivity).
  reflexivity.
Qed.

Lemma aspect_counts_rows (records : list record) (ranking : DataFrame) (r : record) :
  records <> [] ->
  (forall r, In r records -> is_plot_record r) ->
  aspect_counts (frame_of_records records) = Ok ranking ->
  (In r (rows ranking) <->
   exists name, In (CStr name) (map (field "维度") records) /\
                r = ranking_row records name).
Proof.
  intros Hne Hall H.
  rewrite aspect_counts_spec in H by (apply frame_of_records_columns; assumption).
  injection H as <-. cbn [rows frame_of_records].
  rewrite sort_desc_In, in_map_iff.
  split.
  - intros (k & <- & Hk). exists k; split; [|reflexivity].
    apply group_keys_In; exact Hk.
  - intros (k & Hk & ->). exists k; split; [reflexivity|].
    apply group_keys_In; exact Hk.
Qed.

Lemma labels_closed_outside (df : DataFrame) (col : string) :
  labels_closed df = true -> In col LABEL_COLUMNS -> outside df col = O.
Proof.
  unfold labels_closed, outside, count_rows. intros H Hc.
  rewrite forallb_forall in H. specialize (H col Hc).
  induction (rows df) as [|r l IH]; [reflexivity|].
  simpl in H. apply andb_true_iff in H. destruct H as [Hr Hl].
  simpl. rewrite Hr. simpl. apply IH; exact Hl.
Qed.

Lemma mentioned_positive_record (df : DataFrame) (col : string) :
  In col LABEL_COLUMNS ->
  (0 < dimension_total (flat_map (dimension_records df) LABEL_COLUMNS)
         (aspect_name col))%Z ->
  In (CStr (aspect_name col))
     (map (field "维度") (flat_map (dimension_records df) LABEL_COLUMNS)).
Proof.
  intros Hc Hpos.
  unfold dimension_total in Hpos.
  rewrite filter_records_of in Hpos;
    [ | exact LABEL_COLUMNS_NoDup | exact Hc
      | intros c Hin He; apply aspect_name_injective; assumption ].
  destruct (dimension_records df col) as [|r l] eqn:Hd; [simpl in Hpos; lia|].
  assert (Hr : In r (dimension_records df col)) by (rewrite Hd; left; reflexivity).
  apply in_map_iff. exists r. split.
  - apply dimension_records_In in Hr. destruct Hr as (s & _ & _ & ->). reflexivity.
  - apply in_flat_map. exists col; split; assumption.
Qed.

(** C10: on a table with the eighteen label columns, for every dimension
    the mentioned-count of the KPI is the total of the dimension in the
    long-format aggregate plus the number of rows whose label is outside
    {正面, 负面, 中性, 未提及}; so when all labels are in that set the two
    are equal.  The ranking chart, when it is drawn, shows for the dimension
    exactly that total, and it has a bar for every dimension whose total is
    not 0. *)
Theorem ranking_total_mentioned (df : DataFrame) (col : string) :
  has_label_columns df = true ->
  In col LABEL_COLUMNS ->
  exists records counts,
    plot_data df = Ok records /\
    mention_counts df LABEL_COLUMNS [] = Ok counts /\
    dict_get counts col = Some (mentioned df col) /\
    Z.of_nat (mentioned df col)
    = (dimension_total records (aspect_name col) + Z.of_nat (outside df col))%Z /\
    (labels_closed df = true ->
     dimension_total records (aspect_name col) = Z.of_nat (mentioned df col)) /\
    (forall ranking r,
       aspect_counts (frame_of_records records) = Ok ranking ->
       In r (rows ranking) ->
       field "维度" r = CStr (aspect_name col) ->
       field "评论数" r = CInt (dimension_total records (aspect_name col))) /\
    ((0 < dimension_total records (aspect_name col))%Z ->
     exists ranking r,
       aspect_counts (frame_of_records records) = Ok ranking /\
       In r (rows ranking) /\
       field "维度" r = CStr (aspect_name col)).
Proof.
  intros Hcols Hc.
  exists (flat_map (dimension_records df) LABEL_COLUMNS).
  exists (map (fun c => (c, mentioned df c)) LABEL_COLUMNS).
  split; [apply plot_data_spec; exact Hcols|].
  split.
  { rewrite (mention_counts_spec df LABEL_COLUMNS [] LABEL_COLUMNS_NoDup
               (fun c _ H => H)); [reflexivity|].
    intros c Hin; apply has_label_columns_In; assumption. }
  split.
  { clear Hcols. induction LABEL_COLUMNS as [|c l IH]; [destruct Hc|].
    simpl. destruct (String.eqb_spec c col) as [->|Hne]; [reflexivity|].
    apply IH. destruct Hc as [->|Hc]; [congruence | exact Hc]. }
  pose proof (dimension_total_mentioned df col Hc) as Htot.
  split; [lia|].
  split.
  { intros Hclosed. rewrite (labels_closed_outside df col Hclosed Hc) in Htot. lia. }
  split.
  - intros ranking r Hrank Hr Hdim.
    destruct (flat_map (dimension_records df) LABEL_COLUMNS) as [|r0 l0] eqn:Hrecs.
    + rewrite frame_of_no_records, aspect_counts_no_columns in Hrank by reflexivity.
      discriminate Hrank.
    + rewrite <- Hrecs in *.
      apply (aspect_counts_rows _ ranking r) in Hrank.
      * apply Hrank in Hr. destruct Hr as (name & _ & ->).
        simpl in Hdim. injection Hdim as ->. reflexivity.
      * rewrite Hrecs; discriminate.
      * apply plot_data_records.
  - intros Hpos.
    pose proof (mentioned_positive_record df col Hc Hpos) as Hin.
    assert (Hne : flat_map (dimension_records df) LABEL_COLUMNS <> []).
    { intros E; rewrite E in Hin; destruct Hin. }
    eexists; exists (ranking_row (flat_map (dimension_records df) LABEL_COLUMNS)
                                 (aspect_name col)).
    split; [apply aspect_counts_spec, frame_of_records_columns;
            [exact Hne | apply plot_data_records]|].
    split; [|reflexivity].
    cbn [rows frame_of_records]. rewrite sort_desc_In, in_map_iff.
    exists (aspect_name col); split; [reflexivity|].
    apply group_keys_In; exact Hin.
Qed.

Lemma ranking_total_mentioned_witness :
  exists records,
    plot_data ten_reviews = Ok records /\
    dimension_total records (aspect_name "Food#Taste")
    = Z.of_nat (mentioned ten_reviews "Food#Taste").
Proof.
  destruct (ranking_total_mentioned ten_reviews "Food#Taste")
    as (records & counts & Hp & _ & _ & _ & Hclosed & _).
  - vm_compute; reflexivity.
  - unfold LABEL_COLUMNS; simpl; tauto.
  - exists records; split; [exact Hp|].
    apply Hclosed. vm_compute; reflexivity.
Defined.

(** ** The negative top 5 *)

Lemma neg_counts_length (df_plot neg : DataFrame) :
  neg_counts df_plot = Ok neg -> (len neg <= 5)%nat.
Proof.
  unfold neg_counts.
  destruct (getitem df_plot "情感") as [s|]; simpl; [|discriminate].
  destruct (sort_values_desc _ _) as [sorted|]; simpl; [|discriminate].
  intros H; injection H as <-. unfold len, head; cbn [rows].
  apply firstn_le_length.
Qed.

Lemma neg_counts_sorted (df_plot neg : DataFrame) :
  neg_counts df_plot = Ok neg -> Sorted (desc_ordered "评论数") (rows neg).
Proof.
  unfold neg_counts.
  destruct (getitem df_plot "情感") as [s|]; simpl; [|discriminate].
  unfold sort_values_desc.
  destruct (getitem _ "评论数") as [c|]; simpl; [|discriminate].
  intros H; injection H as <-. unfold head; cbn [rows].
  apply firstn_sorted, sort_desc_sorted.
Qed.

(** On integer counts the order is the order of the integers. *)
Lemma desc_ordered_counts (a b : record) (x y : Z) :
  field "评论数" a = CInt x -> field "评论数" b = CInt y ->
  desc_ordered "评论数" a b -> (y <= x)%Z.
Proof.
  unfold desc_ordered, desc_before. intros -> ->. simpl.
  intros H. apply negb_false_iff, Qle_bool_iff in H.
  rewrite <- Zle_Qle in H. exact H.
Qed.

Lemma neg_counts_negative (df_plot neg : DataFrame) (r : record) :
  neg_counts df_plot = Ok neg -> In r (rows neg) ->
  In r (rows df_plot) /\ field "情感" r = CStr "负面".
Proof.
  unfold neg_counts, getitem.
  destruct (has_column "情感" df_plot); simpl; [|discriminate].
  unfold sort_values_desc.
  destruct (getitem _ "评论数") as [c|]; simpl; [|discriminate].
  intros H; injection H as <-. unfold head, select; cbn [rows]. intros Hr.
  apply firstn_subset, sort_desc_In in Hr.
  rewrite map_map in Hr.
  rewrite (select_mask_filter (fun r => cell_eq_str "负面" (field "情感" r))) in Hr.
  apply filter_In in Hr. destruct Hr as [Hin Hneg]. split; [exact Hin|].
  destruct (field "情感" r); simpl in Hneg; try discriminate.
  apply String.eqb_eq in Hneg; subst; reflexivity.
Qed.

(** With some records but no negative one, the success line is shown in
    place of the chart. *)
Lemma neg_counts_none (records : list record) :
  records <> [] ->
  (forall r, In r records -> is_plot_record r) ->
  (forall r, In r records -> field "情感" r <> CStr "负面") ->
  exists neg, neg_counts (frame_of_records records) = Ok neg /\ empty neg = true.
Proof.
  intros Hne Hall Hnoneg.
  pose proof (frame_of_records_columns records Hne Hall) as Hcols.
  unfold neg_counts.
  rewrite getitem_ok by (unfold has_column; rewrite Hcols; reflexivity).
  cbn [rbind]. unfold sort_values_desc.
  rewrite getitem_ok by (unfold has_column, select; cbn [columns]; rewrite Hcols; reflexivity).
  cbn [rbind]. eexists; split; [reflexivity|].
  unfold empty, head, select; cbn [columns rows]. rewrite Hcols.
  cbn [frame_of_records rows]. rewrite map_map.
  rewrite (select_mask_filter (fun r => cell_eq_str "负面" (field "情感" r))).
  replace (filter _ records) with (@nil record); [reflexivity|].
  symmetry. clear Hne Hall Hcols.
  induction records as [|r l IH]; [reflexivity|]. simpl.
  destruct (cell_eq_str "负面" (field "情感" r)) eqn:He.
  - exfalso. apply (Hnoneg r (or_introl eq_refl)).
    destruct (field "情感" r); simpl in He; try discriminate.
    apply String.eqb_eq in He; subst; reflexivity.
  - apply IH. intros r' Hr'; apply Hnoneg; right; exact Hr'.
Qed.

(** Without any record the chart section stops at the ranking chart. *)
Lemma chart_section_without_records (df : DataFrame) :
  plot_data df = Ok [] ->
  chart_section df
  = ([ st_text "2. 属性维度情感分布"; st_altair_chart (frame_of_records []);
       st_text "💡 **图表解读**：绿色代表正面评价，红色代表负面评价。柱子越高，代表用户讨论该属性的次数越多。";
       st_text "3. 用户关注点排行" ],
     Halt (Crashed (KeyError "维度"))).
Proof. intros H. unfold chart_section. rewrite H. reflexivity. Qed.

(** C3: at a table whose labels are all 未提及 the long-format aggregate is
    empty, the frame built from it has no columns, and selecting the
    negative entries raises KeyError; the chart section of the script has
    by then already stopped with the KeyError of the ranking chart, and no
    success line is shown. *)
Theorem neg_counts_without_records_raises :
  plot_data unmentioned_reviews = Ok [] /\
  neg_counts (frame_of_records []) = Raise (KeyError "情感") /\
  snd (chart_section unmentioned_reviews) = Halt (Crashed (KeyError "维度")) /\
  ~ In (st_success "暂无显著的负面评价聚集！") (fst (chart_section unmentioned_reviews)).
Proof.
  split; [vm_compute; reflexivity|].
  split; [vm_compute; reflexivity|].
  split; [vm_compute; reflexivity|].
  vm_compute. intros H.
  repeat (destruct H as [H|H]; [discriminate H|]). exact H.
Qed.

(** ** The word cloud *)

Section WordCloud.

Variable str_float : Q -> string.
Variable str_time : Z -> string.
Variable draw_wordcloud : string -> option string.

Lemma join_content_select (df : DataFrame) (p : record -> bool) :
  has_column "content" df = true ->
  join_content str_float str_time (select df (map p (rows df)))
  = Ok (content_text str_float str_time (filter p (rows df))).
Proof.
  intros Hc. unfold join_content.
  rewrite getitem_ok by exact Hc.
  cbn [rbind]. rewrite select_rows_filter, map_map. reflexivity.
Qed.

Lemma join_content_all (df : DataFrame) :
  has_column "content" df = true ->
  join_content str_float str_time df = Ok (content_text str_float str_time (rows df)).
Proof.
  intros Hc. unfold join_content. rewrite getitem_ok by exact Hc.
  cbn [rbind]. rewrite map_map. reflexivity.
Qed.

Lemma text_content_selected (mode : wc_mode) (df : DataFrame) :
  has_column "content" df = true ->
  (mode <> WcAll -> has_column "score" df = true ->
   numeric_column "score" df = true) ->
  text_content str_float str_time mode df
  = Ok (content_text str_float str_time (selected_rows mode df)).
Proof.
  intros Hc Hnum. unfold text_content, selected_rows.
  destruct mode; [apply join_content_all; exact Hc| |];
    destruct (has_column "score" df) eqn:Hs;
    try (apply join_content_all; exact Hc);
    rewrite (getitem_ok _ _ Hs); cbn [rbind].
  - rewrite (mapM_cell_ge_numeric 4 _ (Hnum ltac:(discriminate) eq_refl)).
    cbn [rbind]. apply join_content_select; exact Hc.
  - rewrite (mapM_cell_le_numeric 2 _ (Hnum ltac:(discriminate) eq_refl)).
    cbn [rbind]. apply join_content_select; exact Hc.
Qed.

Lemma join_content_ok (df : DataFrame) (text : string) :
  join_content str_float str_time df = Ok text -> has_column "content" df = true.
Proof.
  unfold join_content, getitem.
  destruct (has_column "content" df); [reflexivity | discriminate].
Qed.

(** A text that is returned was built from a table with a content column
    and, in the two filtered modes, a numeric score column. *)
Lemma text_content_ok (mode : wc_mode) (df : DataFrame) (text : string) :
  text_content str_float str_time mode df = Ok text ->
  has_column "content" df = true /\
  (mode <> WcAll -> has_column "score" df = true ->
   numeric_column "score" df = true).
Proof.
  unfold text_content.
  destruct mode.
  - intros H; split; [exact (join_content_ok _ _ H) | congruence].
  - destruct (has_column "score" df) eqn:Hs.
    + rewrite (getitem_ok _ _ Hs); cbn [rbind].
      destruct (mapM _ _) as [mask|] eqn:Hm; [|discriminate]. cbn [rbind].
      intros H; split; [exact (join_content_ok _ _ H)|].
      intros _ _. exact (mapM_cell_ge_ok 4 _ _ Hm).
    + intros H; split; [exact (join_content_ok _ _ H) | discriminate].
  - destruct (has_column "score" df) eqn:Hs.
    + rewrite (getitem_ok _ _ Hs); cbn [rbind].
      destruct (mapM _ _) as [mask|] eqn:Hm; [|discriminate]. cbn [rbind].
      intros H; split; [exact (join_content_ok _ _ H)|].
      intros _ _. exact (mapM_cell_le_ok 2 _ _ Hm).
    + intros H; split; [exact (join_content_ok _ _ H) | discriminate].
Qed.

(** C6: whenever the text of the word cloud is returned, it is the content
    of the rows selected by the mode.  On a table with a content column
    (and a numeric score column, if it has one) it is returned in every
    mode: the content of all rows in mode "全部"; of the rows with a score
    of at least 4 in mode "仅看好评" and of the rows with a score of at
    most 2 in mode "仅看差评" when there is a score column; and of all rows
    in these two modes when there is none. *)
Theorem text_content_by_mode (df : DataFrame) :
  (forall mode text,
     text_content str_float str_time mode df = Ok text ->
     text = content_text str_float str_time (selected_rows mode df)) /\
  (has_column "content" df = true ->
   (has_column "score" df = true -> numeric_column "score" df = true) ->
   text_content str_float str_time WcAll df
   = Ok (content_text str_float str_time (rows df)) /\
   (has_column "score" df = true ->
      text_content str_float str_time WcPositive df
      = Ok (content_text str_float str_time
              (filter (score_at_least 4) (rows df))) /\
      text_content str_float str_time WcNegative df
      = Ok (content_text str_float str_time
              (filter (score_at_most 2) (rows df)))) /\
   (has_column "score" df = false ->
      text_content str_float str_time WcPositive df
      = Ok (content_text str_float str_time (rows df)) /\
      text_content str_float str_time WcNegative df
      = Ok (content_text str_float str_time (rows df)))).
Proof.
  split.
  - intros mode text H.
    destruct (text_content_ok mode df text H) as [Hc Hnum].
    rewrite (text_content_selected mode df Hc Hnum) in H.
    injection H as <-. reflexivity.
  - intros Hc Hnum.
    pose proof (fun mode => text_content_selected mode df Hc (fun _ => Hnum)) as H.
    split; [exact (H WcAll)|].
    split; intros Hs; (split; [rewrite (H WcPositive) | rewrite (H WcNegative)]);
      unfold selected_rows; rewrite Hs; reflexivity.
Qed.

Lemma wordcloud_never_halts (text : string) :
  snd (wordcloud draw_wordcloud text) = Next tt.
Proof.
  unfold wordcloud. destruct text; [reflexivity|].
  destruct (draw_wordcloud _); reflexivity.
Qed.

(** C7, as the script has it: on a table with a content column (and a
    numeric score column, if it has one) the word-cloud section never
    stops the script.  When the selected text is not empty and drawing
    raises, the error is shown in the page; when drawing succeeds the
    figure is shown; when the selected text is empty nothing is drawn and
    nothing is reported. *)
Theorem wordcloud_failure_reported (mode : wc_mode) (df : DataFrame) :
  has_column "content" df = true ->
  (has_column "score" df = true -> numeric_column "score" df = true) ->
  exists text shown,
    text_content str_float str_time mode df = Ok text /\
    wordcloud_section str_float str_time draw_wordcloud mode df
    = ([ st_text "5. 消费者观点词云";
         st_text "展示评论中出现频率最高的词汇（基于评论正文）。" ] ++ shown,
       Next tt)%list /\
    (text = "" -> shown = []) /\
    (text <> "" ->
       forall e, draw_wordcloud text = Some e ->
                 shown = [st_error (" 词云生成出错: " ++ e)]) /\
    (text <> "" -> draw_wordcloud text = None -> shown = [st_pyplot text]).
Proof.
  intros Hc Hnum.
  pose proof (text_content_selected mode df Hc (fun _ => Hnum)) as Ht.
  eexists. exists (fst (wordcloud draw_wordcloud
                          (content_text str_float str_time (selected_rows mode df)))).
  split; [exact Ht|].
  split.
  { unfold wordcloud_section. rewrite Ht.
    unfold bind, emit, lift.
    pose proof (wordcloud_never_halts
                  (content_text str_float str_time (selected_rows mode df))) as Hw.
    destruct (wordcloud draw_wordcloud _) as [w s]; simpl in Hw; subst s.
    reflexivity. }
  fold (content_text str_float str_time (selected_rows mode df)).
  unfold wordcloud.
  destruct (content_text str_float str_time (selected_rows mode df)) as [|a t] eqn:Htext.
  - repeat split; [intros H; congruence ..].
  - repeat split.
    + intros H; discriminate H.
    + intros _ e He; rewrite He; reflexivity.
    + intros _ He; rewrite He; reflexivity.
Qed.

End WordCloud.

Lemma text_content_by_mode_witness :
  text_content sample_str_float sample_str_time WcAll ten_reviews
  = Ok "a b c d e f g h i j" /\
  text_content sample_str_float sample_str_time WcPositive ten_reviews
  = Ok "a b d f h j" /\
  text_content sample_str_float sample_str_time WcNegative ten_reviews
  = Ok "c g".
Proof.
  destruct (text_content_by_mode sample_str_float sample_str_time ten_reviews)
    as (_ & Hmodes).
  destruct Hmodes as (Hall & Hscore & _).
  - vm_compute; reflexivity.
  - intros _; vm_compute; reflexivity.
  - destruct (Hscore eq_refl) as [Hpos Hneg].
    rewrite Hall, Hpos, Hneg. vm_compute. repeat split.
Defined.

(** C7 does not hold as stated: at a table without low scores the
    negative-only text is empty, and no error is shown even with a drawing
    call that would fail. *)
Lemma wordcloud_empty_text_shows_no_error :
  text_content sample_str_float sample_str_time WcNegative praise_only = Ok "" /\
  ~ (exists msg,
       In (st_error msg)
          (fst (wordcloud_section sample_str_float sample_str_time draw_fails
                  WcNegative praise_only))).
Proof.
  split; [vm_compute; reflexivity|].
  intros [msg H]. vm_compute in H.
  repeat (destruct H as [H|H]; [discriminate H|]). exact H.
Qed.

Lemma wordcloud_failure_reported_witness :
  In (st_error " 词云生成出错: cannot open resource")
     (fst (wordcloud_section sample_str_float sample_str_time draw_fails
             WcAll praise_only)).
Proof.
  destruct (wordcloud_failure_reported sample_str_float sample_str_time draw_fails
              WcAll praise_only)
    as (text & shown & Ht & Hsec & _ & Herr & _).
  - vm_compute; reflexivity.
  - intros _; vm_compute; reflexivity.
  - rewrite Hsec. cbn [fst]. apply in_or_app; right.
    assert (Htext : text = "很好吃 还会再来").
    { vm_compute in Ht. injection Ht as <-. reflexivity. }
    rewrite (Herr ltac:(rewrite Htext; discriminate) "cannot open resource"
               ltac:(reflexivity)).
    left; reflexivity.
Defined.

(** ** Loading *)

Lemma dict_get_set_same {V : Type} (d : list (string * V)) (k : string) (v : V) :
  dict_get (dict_set d k v) k = Some v.
Proof.
  induction d as [|[k' v'] d IH]; simpl.
  - rewrite String.eqb_refl; reflexivity.
  - destruct (String.eqb k' k) eqn:E; simpl; rewrite E; [reflexivity | exact IH].
Qed.

Lemma dict_get_set_other {V : Type} (d : list (string * V)) (k k0 : string) (v : V) :
  k0 <> k -> dict_get (dict_set d k v) k0 = dict_get d k0.
Proof.
  intros Hne. induction d as [|[k' v'] d IH]; simpl.
  - destruct (String.eqb_spec k k0); [congruence | reflexivity].
  - destruct (String.eqb_spec k' k) as [->|Hk]; simpl.
    + destruct (String.eqb_spec k k0); [congruence | reflexivity].
    + destruct (String.eqb k' k0); [reflexivity | exact IH].
Qed.

Lemma setitem_same (name : string) (l : list record) (f : record -> cell) :
  map (field name)
    (map (fun rc => dict_set (fst rc) name (snd rc)) (combine l (map f l)))
  = map f l.
Proof.
  induction l as [|r l IH]; simpl; [reflexivity|].
  rewrite IH. unfold field at 1. rewrite dict_get_set_same. reflexivity.
Qed.

Lemma setitem_other (name name0 : string) (l : list record) (f : record -> cell) :
  name0 <> name ->
  map (field name0)
    (map (fun rc => dict_set (fst rc) name (snd rc)) (combine l (map f l)))
  = map (field name0) l.
Proof.
  intros Hne. induction l as [|r l IH]; simpl; [reflexivity|].
  rewrite IH. unfold field at 1 3. rewrite dict_get_set_other by exact Hne.
  reflexivity.
Qed.

Lemma setitem_length (name : string) (l : list record) (f : record -> cell) :
  List.length
    (map (fun rc => dict_set (fst rc) name (snd rc)) (combine l (map f l)))
  = List.length l.
Proof. rewrite length_map, length_combine, length_map. lia. Qed.

Lemma setitem_columns (df : DataFrame) (name : string) (s : list cell) :
  has_column name df = true -> columns (setitem df name s) = columns df.
Proof. intros H. unfold setitem; cbn [columns]. rewrite H. reflexivity. Qed.

Section Loading.

Variable to_datetime_value : cell -> option Z.
Variable str_float : Q -> string.
Variable str_time : Z -> string.
Variable draw_wordcloud : string -> option string.

(** C9: when the table read from the file has no time column, [load_data]
    returns it as it is and the sidebar shows no date input and raises
    nothing, whatever the picker would return.  When it has one, [load_data]
    still returns a table, with the same columns and as many rows, whose
    time column holds, row by row, the timestamp of the value when it
    parses and NaT when it does not, so every cell of it is a timestamp or
    NaT; all other columns are unchanged, and with a complete range picked
    the sidebar raises nothing on that table. *)
Theorem time_column_optional (picked : list Z) (df : DataFrame) :
  if has_column "time" df then
    exists df' times,
      load_data to_datetime_value (Readable df) = Some df' /\
      columns df' = columns df /\
      len df' = len df /\
      getitem df' "time" = Ok times /\
      times = map (fun r => match to_datetime_value (field "time" r) with
                            | Some ns => CTime ns
                            | None => CNaT
                            end) (rows df) /\
      Forall (fun c => (exists ns, c = CTime ns) \/ c = CNaT) times /\
      (forall name, name <> "time" -> getitem df' name = getitem df name) /\
      (forall a b, snd (sidebar_filter [a; b] df') = Next tt)
  else
    load_data to_datetime_value (Readable df) = Some df /\
    sidebar_filter picked df = ([], Next tt).
Proof.
  destruct (has_column "time" df) eqn:Ht.
  - set (parsed := fun r : record =>
                     match to_datetime_value (field "time" r) with
                     | Some ns => CTime ns
                     | None => CNaT
                     end).
    assert (Hcoerce : to_datetime_coerce to_datetime_value
                        (map (field "time") (rows df)) = map parsed (rows df)).
    { unfold to_datetime_coerce, coerce. rewrite map_map. reflexivity. }
    unfold load_data. rewrite Ht, (getitem_ok _ _ Ht), Hcoerce.
    eexists; exists (map parsed (rows df)). split; [reflexivity|].
    split; [apply setitem_columns; exact Ht|].
    assert (Htime : getitem (setitem df "time" (map parsed (rows df))) "time"
                    = Ok (map parsed (rows df))).
    { unfold getitem, has_column. rewrite (setitem_columns _ _ _ Ht).
      fold (has_column "time" df). rewrite Ht. unfold setitem; cbn [rows].
      rewrite (setitem_same "time" (rows df) parsed). reflexivity. }
    split; [|split; [|split; [|split; [|split]]]].
    + unfold len, setitem; cbn [rows].
      apply (setitem_length "time" (rows df) parsed).
    + exact Htime.
    + reflexivity.
    + apply Forall_forall. intros c Hc. apply in_map_iff in Hc.
      destruct Hc as (r & <- & _). unfold parsed.
      destruct (to_datetime_value (field "time" r)) as [ns|];
        [left; exists ns; reflexivity | right; reflexivity].
    + intros name Hne. unfold getitem, has_column.
      rewrite (setitem_columns _ _ _ Ht).
      unfold setitem; cbn [rows].
      rewrite (setitem_other "time" name (rows df) parsed Hne).
      reflexivity.
    + intros a b. unfold sidebar_filter. rewrite Htime.
      unfold has_column. rewrite (setitem_columns _ _ _ Ht).
      fold (has_column "time" df). rewrite Ht.
      unfold bind, lift, emit, ret, unpack_range.
      destruct (time_min _); [destruct (time_max _)|]; reflexivity.
  - split.
    + unfold load_data. rewrite Ht. reflexivity.
    + unfold sidebar_filter. rewrite Ht. reflexivity.
Qed.

(** The branch of the script for a missing file: an error line, then
    [st.stop()]. *)
Lemma missing_file_stops (mode : wc_mode) (picked : list Z) :
  app to_datetime_value str_float str_time draw_wordcloud
    {| uploaded_file := None; default_file := None; wc_option := mode;
       picked_dates := picked |}
  = ([ st_text "🛠️ 系统控制面板";
       st_error "未找到数据文件！请上传 CSV 或确保目录下有 final_analysis_result.csv" ],
     Halt Stopped).
Proof. reflexivity. Qed.

(** C8: [load_data] returns [None] for a file that cannot be read, but the
    script then reports the upload as loaded and goes on to [df.columns],
    which raises AttributeError: no error line is shown and [st.stop()] is
    not reached.  For a file with a header and no rows the KPI section runs
    and raises ZeroDivisionError.  Both hold whatever the default file, the
    word-cloud mode and the value of the date picker. *)
Theorem unreadable_file_crashes (fallback : option csv_file) (mode : wc_mode)
  (picked : list Z) :
  load_data to_datetime_value Unreadable = None /\
  app to_datetime_value str_float str_time draw_wordcloud
    {| uploaded_file := Some Unreadable; default_file := fallback;
       wc_option := mode; picked_dates := picked |}
  = ([ st_text "🛠️ 系统控制面板"; st_sidebar_success "✅ 已加载上传文件";
       st_text "数据筛选" ],
     Halt (Crashed (AttributeError "columns"))) /\
  load_data to_datetime_value (Readable header_only) = Some header_only /\
  app to_datetime_value str_float str_time draw_wordcloud
    {| uploaded_file := Some (Readable header_only); default_file := fallback;
       wc_option := mode; picked_dates := picked |}
  = ([ st_text "🛠️ 系统控制面板"; st_sidebar_success "✅ 已加载上传文件";
       st_text "数据筛选"; st_text "电商商品评论观点挖掘与分析系统";
       st_text "基于 BERT 深度学习模型的细粒度情感分析结果展示";
       st_text "1. 关键数据概览" ],
     Halt (Crashed ZeroDivisionError)).
Proof.
  split; [reflexivity|].
  split; [reflexivity|].
  split; [reflexivity|].
  reflexivity.
Qed.

End Loading.

(** ** The script on the sample files *)

Example positive_rate_ten_reviews :
  exists q, positive_rate ten_reviews = Ok (q, "五星好评率") /\ (q == 60)%Q.
Proof. eexists; split; [vm_compute; reflexivity | reflexivity]. Qed.

Example positive_rate_float_six_of_ten :
  positive_rate_float 6 10 = 60%float.
Proof. vm_compute. reflexivity. Qed.

Example top_aspect_ten_reviews :
  top_aspect ten_reviews = Ok "Location#Transportation".
Proof. vm_compute. reflexivity. Qed.

Example neg_counts_ten_reviews :
  exists neg,
    (records <- plot_data ten_reviews ;; neg_counts (frame_of_records records))
    = Ok neg /\ len neg = 5%nat /\
    map (field "评论数") (rows neg) = [CInt 2; CInt 2; CInt 2; CInt 2; CInt 2].
Proof. eexists; split; [vm_compute; reflexivity | split; reflexivity]. Qed.

Example app_ten_reviews :
  let run := app sample_to_datetime sample_str_float sample_str_time draw_succeeds
               {| uploaded_file := Some (Readable ten_reviews);
                  default_file := None; wc_option := WcAll;
                  picked_dates := [] |} in
  snd run = Next tt /\
  List.length (fst run) = 24%nat /\
  existsb is_date_input (fst run) = false.
Proof. vm_compute. repeat split. Qed.

Example app_timed_reviews :
  let run := app sample_to_datetime sample_str_float sample_str_time draw_fails
               {| uploaded_file := None;
                  default_file := Some (Readable timed_reviews);
                  wc_option := WcNegative;
                  picked_dates := [19723; 19724]%Z |} in
  snd run = Next tt /\
  In (st_date_input 19723 19724) (fst run) /\
  In (st_error " 词云生成出错: cannot open resource") (fst run) /\
  option_map (fun df => map (field "time") (rows df))
    (load_data sample_to_datetime (Readable timed_reviews))
  = Some [CTime 1704153600000000000; CNaT; CTime 1704067200000000000].
Proof.
  vm_compute. split; [reflexivity|]. split; [|split; [|reflexivity]].
  - do 3 right; left; reflexivity.
  - repeat (try (left; reflexivity); right).
Qed.

(** * Further properties of the script *)

(** ** The KPI section *)

Lemma positive_rate_no_rows (df : DataFrame) :
  rows df = [] ->
  positive_rate df
  = if has_column "score" df || has_column "Food#Recommend" df
    then Raise ZeroDivisionError
    else Raise (KeyError "Food#Recommend").
Proof.
  intros Hr. unfold positive_rate, getitem, len, select. rewrite Hr.
  destruct (has_column "score" df); [reflexivity|].
  destruct (has_column "Food#Recommend" df); reflexivity.
Qed.

(** X1: on a table without rows the KPI section ends right after its heading:
    with a score or a recommendation column in a division by zero, without
    both in the KeyError of the recommendation column.  No metric is
    shown. *)
Theorem kpi_section_no_rows (df : DataFrame) :
  rows df = [] ->
  kpi_section df
  = ([st_text "1. 关键数据概览"],
     Halt (Crashed (if has_column "score" df || has_column "Food#Recommend" df
                    then ZeroDivisionError
                    else KeyError "Food#Recommend"))).
Proof.
  intros Hr. unfold kpi_section. rewrite (positive_rate_no_rows df Hr).
  destruct (has_column "score" df || has_column "Food#Recommend" df); reflexivity.
Qed.

Lemma kpi_section_no_rows_witness :
  kpi_section header_only
  = ([st_text "1. 关键数据概览"], Halt (Crashed ZeroDivisionError)).
Proof. exact (kpi_section_no_rows header_only eq_refl). Defined.

Lemma top_aspect_total (df : DataFrame) :
  has_label_columns df = true -> exists top, top_aspect df = Ok top.
Proof.
  intros Hcols.
  destruct (max_key_first_maximal df LABEL_COLUMNS) as (top & _ & _ & Htop & _).
  - intros H; apply (f_equal (@List.length string)) in H; vm_compute in H;
      discriminate H.
  - exact LABEL_COLUMNS_NoDup.
  - intros c Hc; apply has_label_columns_In; assumption.
  - exists top; exact Htop.
Qed.

(** X2: on a non-empty table with the eighteen label columns and a numeric
    score column (or none) the KPI section raises nothing and shows four
    metrics in this order: the number of rows, the positive rate under its
    label, the display name of the top aspect, and the fixed "18 个". *)
Theorem kpi_section_metrics (df : DataFrame) :
  rows df <> [] ->
  (has_column "score" df = true -> numeric_column "score" df = true) ->
  has_label_columns df = true ->
  exists q label top,
    positive_rate df = Ok (q, label) /\
    top_aspect df = Ok top /\
    kpi_section df
    = ([ st_text "1. 关键数据概览";
         st_metric "总评论数" (MCount (List.length (rows df)));
         st_metric label (MRate q);
         st_metric "最热讨论点" (MText (aspect_name top));
         st_metric "模型分析维度" (MText "18 个") ],
       Next tt).
Proof.
  intros Hne Hnum Hcols.
  assert (Hlen : len df <> O).
  { unfold len; destruct (rows df); simpl; congruence. }
  assert (Hrate : exists q label, positive_rate df = Ok (q, label)).
  { destruct (has_column "score" df) eqn:Hc.
    - rewrite (positive_rate_scored df Hc (Hnum eq_refl)).
      rewrite (truediv_nonzero _ _ Hlen). cbn [rbind].
      eexists; eexists; reflexivity.
    - unfold positive_rate. rewrite Hc.
      rewrite (getitem_ok df "Food#Recommend").
      + cbn [rbind]. rewrite (truediv_nonzero _ _ Hlen). cbn [rbind].
        eexists; eexists; reflexivity.
      + apply has_label_columns_In; [exact Hcols|].
        unfold LABEL_COLUMNS; simpl; tauto. }
  destruct Hrate as (q & label & Hq).
  destruct (top_aspect_total df Hcols) as (top & Htop).
  exists q, label, top. split; [exact Hq|]. split; [exact Htop|].
  unfold kpi_section. rewrite Hq, Htop. reflexivity.
Qed.

Lemma kpi_section_metrics_witness :
  exists q label top,
    positive_rate ten_reviews = Ok (q, label) /\
    top_aspect ten_reviews = Ok top /\
    kpi_section ten_reviews
    = ([ st_text "1. 关键数据概览";
         st_metric "总评论数" (MCount (List.length (rows ten_reviews)));
         st_metric label (MRate q);
         st_metric "最热讨论点" (MText (aspect_name top));
         st_metric "模型分析维度" (MText "18 个") ],
       Next tt).
Proof.
  apply (kpi_section_metrics ten_reviews).
  - discriminate.
  - intros _; vm_compute; reflexivity.
  - vm_compute; reflexivity.
Defined.

(** X3: without a score column the rate is 100 times the fraction of rows whose
    Food#Recommend is 正面, under the label of the model-based metric; when
    that column is missing as well, the lookup raises KeyError. *)
Theorem positive_rate_fallback (df : DataFrame) :
  has_column "score" df = false ->
  (has_column "Food#Recommend" df = false ->
   positive_rate df = Raise (KeyError "Food#Recommend")) /\
  (has_column "Food#Recommend" df = true -> rows df <> [] ->
   positive_rate df
   = Ok ((inject_Z (Z.of_nat
            (count_rows (fun r => cell_eq_str "正面" (field "Food#Recommend" r)) df))
          / inject_Z (Z.of_nat (len df)) * 100)%Q,
         "推荐指数 (基于模型)")).
Proof.
  intros Hs. split.
  - intros Hr. unfold positive_rate. rewrite Hs, (getitem_missing _ _ Hr).
    reflexivity.
  - intros Hr Hne.
    assert (Hlen : len df <> O).
    { unfold len; destruct (rows df); simpl; congruence. }
    unfold positive_rate. rewrite Hs, (getitem_ok _ _ Hr). cbn [rbind].
    unfold len at 1. rewrite map_map.
    rewrite (select_rows_filter
               (fun r => cell_eq_str "正面" (field "Food#Recommend" r))).
    fold (count_rows (fun r => cell_eq_str "正面" (field "Food#Recommend" r)) df).
    rewrite (truediv_nonzero _ _ Hlen). reflexivity.
Qed.

Lemma positive_rate_fallback_witness :
  exists q,
    positive_rate unscored_reviews = Ok (q, "推荐指数 (基于模型)") /\ (q == 50)%Q.
Proof.
  destruct (positive_rate_fallback unscored_reviews) as [_ H].
  - vm_compute; reflexivity.
  - eexists; split.
    + apply H; [vm_compute; reflexivity | discriminate].
    + vm_compute; reflexivity.
Defined.

(** ** Columns of the wrong kind, missing columns *)

Lemma mapM_cell_ge_raises (k : Z) (l : list record) :
  forallb (fun r => is_numeric (field "score" r)) l = false ->
  mapM (cell_ge k) (map (field "score") l) = Raise TypeError.
Proof.
  induction l as [|r l IH]; simpl; [discriminate|].
  intros H. apply andb_false_iff in H.
  destruct (field "score" r); simpl in *; try reflexivity;
    (destruct H as [H|H]; [discriminate H | rewrite (IH H); reflexivity]).
Qed.

Lemma mapM_cell_le_raises (k : Z) (l : list record) :
  forallb (fun r => is_numeric (field "score" r)) l = false ->
  mapM (cell_le k) (map (field "score") l) = Raise TypeError.
Proof.
  induction l as [|r l IH]; simpl; [discriminate|].
  intros H. apply andb_false_iff in H.
  destruct (field "score" r); simpl in *; try reflexivity;
    (destruct H as [H|H]; [discriminate H | rewrite (IH H); reflexivity]).
Qed.

Section ScoreKind.

Variable str_float : Q -> string.
Variable str_time : Z -> string.

(** X4: a score column with a cell that is no number (a string, say) makes the
    comparison with 4 or 2 raise TypeError: the positive rate and the two
    filtered word-cloud modes raise, and there is no fall-back to the
    recommendation column or to the full text.  Mode "全部", which does not
    read the score, still returns the content of all rows. *)
Theorem score_not_numeric_raises (df : DataFrame) :
  has_column "score" df = true ->
  numeric_column "score" df = false ->
  positive_rate df = Raise TypeError /\
  text_content str_float str_time WcPositive df = Raise TypeError /\
  text_content str_float str_time WcNegative df = Raise TypeError /\
  (has_column "content" df = true ->
   text_content str_float str_time WcAll df
   = Ok (content_text str_float str_time (rows df))).
Proof.
  intros Hc Hn. unfold numeric_column in Hn.
  split; [|split; [|split]].
  - unfold positive_rate. rewrite Hc, (getitem_ok _ _ Hc). cbn [rbind].
    rewrite (mapM_cell_ge_raises 4 _ Hn). reflexivity.
  - unfold text_content. rewrite Hc, (getitem_ok _ _ Hc). cbn [rbind].
    rewrite (mapM_cell_ge_raises 4 _ Hn). reflexivity.
  - unfold text_content. rewrite Hc, (getitem_ok _ _ Hc). cbn [rbind].
    rewrite (mapM_cell_le_raises 2 _ Hn). reflexivity.
  - intros Hcontent. unfold text_content, join_content, content_text.
    rewrite (getitem_ok _ _ Hcontent). cbn [rbind]. rewrite map_map. reflexivity.
Qed.

End ScoreKind.

Lemma score_not_numeric_raises_witness :
  positive_rate worded_scores = Raise TypeError /\
  text_content sample_str_float sample_str_time WcAll worded_scores = Ok "a b".
Proof.
  destruct (score_not_numeric_raises sample_str_float sample_str_time worded_scores)
    as (Hrate & _ & _ & Hall).
  - vm_compute; reflexivity.
  - vm_compute; reflexivity.
  - split; [exact Hrate|]. rewrite Hall by (vm_compute; reflexivity).
    vm_compute; reflexivity.
Defined.

Lemma mention_counts_missing (df : DataFrame) (c : string) (post : list string) :
  forall pre counts,
    (forall x, In x pre -> has_column x df = true) ->
    has_column c df = false ->
    mention_counts df (pre ++ c :: post) counts = Raise (KeyError c).
Proof.
  induction pre as [|p pre IH]; intros counts Hpre Hc; cbn [Datatypes.app mention_counts].
  - rewrite (getitem_missing _ _ Hc). reflexivity.
  - rewrite (getitem_ok _ _ (Hpre p (or_introl eq_refl))). cbn [rbind].
    apply IH; [|exact Hc]. intros x Hx; apply Hpre; right; exact Hx.
Qed.

Lemma plot_data_loop_missing (df : DataFrame) (c : string) (post : list string) :
  forall pre acc,
    (forall x, In x pre -> has_column x df = true) ->
    has_column c df = false ->
    plot_data_loop df (pre ++ c :: post) acc = Raise (KeyError c).
Proof.
  induction pre as [|p pre IH]; intros acc Hpre Hc; cbn [Datatypes.app plot_data_loop].
  - rewrite (getitem_missing _ _ Hc). reflexivity.
  - rewrite (getitem_ok _ _ (Hpre p (or_introl eq_refl))). cbn [rbind].
    apply IH; [|exact Hc]. intros x Hx; apply Hpre; right; exact Hx.
Qed.

(** X5: when label columns are missing from the table, the top aspect and the
    long-format aggregate both raise KeyError for the first missing
    dimension of the fixed list; nothing is computed from the columns that
    are there. *)
Theorem missing_label_column_raises (df : DataFrame) (pre post : list string)
  (c : string) :
  LABEL_COLUMNS = (pre ++ c :: post)%list ->
  (forall x, In x pre -> has_column x df = true) ->
  has_column c df = false ->
  top_aspect df = Raise (KeyError c) /\
  plot_data df = Raise (KeyError c).
Proof.
  intros HL Hpre Hc. unfold top_aspect, plot_data. rewrite HL.
  rewrite (mention_counts_missing df c post pre [] Hpre Hc).
  rewrite (plot_data_loop_missing df c post pre [] Hpre Hc).
  split; reflexivity.
Qed.

Lemma missing_label_column_raises_witness :
  top_aspect queue_missing = Raise (KeyError "Service#Queue") /\
  plot_data queue_missing = Raise (KeyError "Service#Queue").
Proof.
  apply (missing_label_column_raises queue_missing
           (firstn 3 LABEL_COLUMNS) (skipn 4 LABEL_COLUMNS) "Service#Queue").
  - reflexivity.
  - intros x Hx. cbn in Hx.
    destruct Hx as [<-|[<-|[<-|[]]]]; vm_compute; reflexivity.
  - vm_compute; reflexivity.
Defined.

(** ** Ties for the top aspect *)

Lemma max_key_all_equal (df : DataFrame) (b : string) (l : list string) :
  NoDup (b :: l) ->
  (forall c, In c (b :: l) -> has_column c df = true) ->
  (forall c, In c l -> mentioned df c = mentioned df b) ->
  (counts <- mention_counts df (b :: l) [] ;; max_key counts) = Ok b.
Proof.
  intros Hnd Hcols Heq.
  destruct (max_key_first_maximal df (b :: l)) as (top & pre & post & Htop & Hsplit & _ & Hpre);
    [discriminate | exact Hnd | exact Hcols |].
  rewrite Htop. f_equal.
  destruct pre as [|p pre]; simpl in Hsplit; injection Hsplit as Hb Hl.
  - symmetry; exact Hb.
  - subst p. specialize (Hpre b (or_introl eq_refl)).
    assert (Hin : In top l) by (rewrite Hl; apply in_or_app; right; left; reflexivity).
    rewrite (Heq top Hin) in Hpre. lia.
Qed.

(** X6: when all eighteen dimensions have the same mentioned-count, in
    particular when no row mentions any dimension, the top aspect is the
    first dimension of the list, Location#Transportation. *)
Theorem top_aspect_all_tied (df : DataFrame) :
  has_label_columns df = true ->
  (forall c, In c LABEL_COLUMNS ->
     mentioned df c = mentioned df "Location#Transportation") ->
  top_aspect df = Ok "Location#Transportation".
Proof.
  intros Hcols Heq. unfold top_aspect.
  change LABEL_COLUMNS with ("Location#Transportation" :: tl LABEL_COLUMNS).
  apply max_key_all_equal.
  - exact LABEL_COLUMNS_NoDup.
  - intros c Hc. apply has_label_columns_In; assumption.
  - intros c Hc. apply Heq. right; exact Hc.
Qed.

Lemma top_aspect_all_tied_witness :
  top_aspect unmentioned_reviews = Ok "Location#Transportation".
Proof.
  apply (top_aspect_all_tied unmentioned_reviews).
  - vm_compute; reflexivity.
  - intros c Hc. unfold LABEL_COLUMNS in Hc. cbn in Hc.
    repeat (destruct Hc as [<-|Hc]; [vm_compute; reflexivity|]).
    destruct Hc.
Defined.

(** ** Shape of the long-format aggregate *)

Lemma dimension_records_keys (df : DataFrame) (c : string) :
  map (fun r => (field "原始维度" r, field "情感" r)) (dimension_records df c)
  = map (fun s => (CStr c, CStr s))
      (filter (fun s => (0 <? value_count (map (field c) (rows df)) s)%nat)
         SENTIMENTS).
Proof.
  unfold dimension_records, SENTIMENTS. cbn [flat_map filter]. cbv zeta.
  destruct (0 <? value_count (map (field c) (rows df)) "正面")%nat;
    destruct (0 <? value_count (map (field c) (rows df)) "负面")%nat;
    destruct (0 <? value_count (map (field c) (rows df)) "中性")%nat;
    reflexivity.
Qed.

Lemma dimension_records_length (df : DataFrame) (c : string) :
  (List.length (dimension_records df c) <= 3)%nat.
Proof.
  unfold dimension_records, SENTIMENTS. cbn [flat_map]. cbv zeta.
  destruct (0 <? value_count (map (field c) (rows df)) "正面")%nat;
    destruct (0 <? value_count (map (field c) (rows df)) "负面")%nat;
    destruct (0 <? value_count (map (field c) (rows df)) "中性")%nat;
    simpl; lia.
Qed.

Lemma SENTIMENTS_NoDup : NoDup SENTIMENTS.
Proof.
  replace SENTIMENTS with (nodup string_dec SENTIMENTS) by (vm_compute; reflexivity).
  apply NoDup_nodup.
Qed.

Lemma plot_records_keys_NoDup (df : DataFrame) (cols : list string) :
  NoDup cols ->
  NoDup (map (fun r => (field "原始维度" r, field "情感" r))
           (flat_map (dimension_records df) cols)).
Proof.
  induction cols as [|c cols IH]; intros Hnd; [constructor|].
  inversion Hnd as [|? ? Hnotin Hnd']; subst.
  cbn [flat_map]. rewrite map_app. apply NoDup_app.
  - rewrite dimension_records_keys.
    apply Finite.Injective_map_NoDup.
    + intros x y H; congruence.
    + apply NoDup_filter, SENTIMENTS_NoDup.
  - apply IH; exact Hnd'.
  - intros k Hk Hk'. rewrite dimension_records_keys in Hk.
    apply in_map_iff in Hk. destruct Hk as (s & <- & _).
    apply in_map_iff in Hk'. destruct Hk' as (r & Hr & Hin).
    apply in_flat_map in Hin. destruct Hin as (c' & Hc' & Hin).
    apply dimension_records_In in Hin. destruct Hin as (s' & _ & _ & ->).
    cbn in Hr. injection Hr as Hc _. subst c'. exact (Hnotin Hc').
Qed.

Lemma plot_records_length (df : DataFrame) (cols : list string) :
  (List.length (flat_map (dimension_records df) cols) <= 3 * List.length cols)%nat.
Proof.
  induction cols as [|c cols IH]; [simpl; lia|].
  cbn [flat_map]. rewrite length_app.
  pose proof (dimension_records_length df c). cbn [List.length]. lia.
Qed.

Lemma mentioned_le_len (df : DataFrame) (col : string) :
  (mentioned df col <= len df)%nat.
Proof. unfold mentioned, count_rows, len. apply filter_length_le. Qed.

(** X7: on a table with the eighteen label columns the long-format aggregate
    has at most 54 entries, no two of them for the same dimension and
    sentiment, and the counts of one dimension add up to at most the number
    of rows. *)
Theorem plot_data_shape (df : DataFrame) :
  has_label_columns df = true ->
  exists records,
    plot_data df = Ok records /\
    (List.length records <= 54)%nat /\
    NoDup (map (fun r => (field "原始维度" r, field "情感" r)) records) /\
    forall col, In col LABEL_COLUMNS ->
      (0 <= dimension_total records (aspect_name col) <= Z.of_nat (len df))%Z.
Proof.
  intros Hcols. eexists; split; [apply plot_data_spec; exact Hcols|].
  split; [|split].
  - pose proof (plot_records_length df LABEL_COLUMNS) as H.
    change (List.length LABEL_COLUMNS) with 18%nat in H. lia.
  - apply plot_records_keys_NoDup, LABEL_COLUMNS_NoDup.
  - intros col Hc.
    pose proof (dimension_total_mentioned df col Hc) as Ht.
    pose proof (mentioned_le_len df col) as Hm.
    pose proof (mentioned_split df col) as Hs.
    unfold dimension_total in *.
    rewrite filter_records_of in *;
      try exact LABEL_COLUMNS_NoDup; try exact Hc;
      try (intros c Hin He; apply aspect_name_injective; assumption).
    rewrite dimension_records_total in *. lia.
Qed.

Lemma plot_data_shape_witness :
  exists records,
    plot_data ten_reviews = Ok records /\
    (List.length records <= 54)%nat /\
    NoDup (map (fun r => (field "原始维度" r, field "情感" r)) records) /\
    forall col, In col LABEL_COLUMNS ->
      (0 <= dimension_total records (aspect_name col)
       <= Z.of_nat (len ten_reviews))%Z.
Proof.
  apply (plot_data_shape ten_reviews). vm_compute; reflexivity.
Defined.

(** ** The ranking chart *)

Lemma ascii_compare_lt_trans (a b c : ascii) :
  Ascii.compare a b = Lt -> Ascii.compare b c = Lt -> Ascii.compare a c = Lt.
Proof.
  unfold Ascii.compare. rewrite !N.compare_lt_iff. apply N.lt_trans.
Qed.

Lemma string_compare_lt_trans (a : string) :
  forall b c, String.compare a b = Lt -> String.compare b c = Lt ->
              String.compare a c = Lt.
Proof.
  induction a as [|x a IH]; intros [|y b] [|z c]; simpl; try congruence.
  destruct (Ascii.compare x y) eqn:Exy; try discriminate.
  - apply Ascii.compare_eq_iff in Exy; subst y.
    destruct (Ascii.compare x z); try congruence. apply IH.
  - intros _. destruct (Ascii.compare y z) eqn:Eyz; try discriminate.
    + apply Ascii.compare_eq_iff in Eyz; subst z. rewrite Exy. reflexivity.
    + rewrite (ascii_compare_lt_trans _ _ _ Exy Eyz). reflexivity.
Qed.

Lemma string_ltb_trans (a b c : string) :
  String.ltb a b = true -> String.ltb b c = true -> String.ltb a c = true.
Proof.
  unfold String.ltb.
  destruct (String.compare a b) eqn:Hab; try discriminate.
  destruct (String.compare b c) eqn:Hbc; try discriminate.
  rewrite (string_compare_lt_trans _ _ _ Hab Hbc). reflexivity.
Qed.

Lemma string_ltb_irrefl (a : string) : String.ltb a a = false.
Proof.
  unfold String.ltb. destruct (String.compare a a) eqn:H; try reflexivity.
  pose proof (String.compare_antisym a a) as Ha. rewrite H in Ha. discriminate Ha.
Qed.

Lemma string_ltb_total (a b : string) :
  a <> b -> String.ltb a b = false -> String.ltb b a = true.
Proof.
  unfold String.ltb. intros Hne.
  rewrite (String.compare_antisym b a).
  destruct (String.compare a b) eqn:H; simpl; try congruence.
  apply String.compare_eq_iff in H. congruence.
Qed.

Lemma insert_key_sorted (k : string) (keys : list string) :
  StronglySorted (fun a b => String.ltb a b = true) keys ->
  StronglySorted (fun a b => String.ltb a b = true) (insert_key k keys).
Proof.
  induction keys as [|k' keys IH]; intros Hs; simpl.
  - constructor; constructor.
  - inversion Hs as [|? ? Hs' Hall]; subst.
    destruct (String.eqb_spec k' k) as [->|Hne]; [exact Hs|].
    destruct (String.ltb k' k) eqn:Hlt.
    + constructor; [apply IH; exact Hs'|].
      rewrite Forall_forall in *. intros x Hx.
      apply insert_key_In in Hx. destruct Hx as [->|Hx]; [exact Hlt | apply Hall; exact Hx].
    + pose proof (string_ltb_total k' k Hne Hlt) as Hgt.
      constructor; [exact Hs|].
      constructor; [exact Hgt|].
      rewrite Forall_forall in *. intros x Hx.
      apply (string_ltb_trans k k' x Hgt). apply Hall; exact Hx.
Qed.

Lemma group_keys_sorted (keys : list cell) :
  StronglySorted (fun a b => String.ltb a b = true) (group_keys keys).
Proof.
  induction keys as [|c keys IH]; simpl; [constructor|].
  destruct c; try exact IH. apply insert_key_sorted; exact IH.
Qed.

Lemma group_keys_NoDup (keys : list cell) : NoDup (group_keys keys).
Proof.
  pose proof (group_keys_sorted keys) as Hs.
  induction Hs as [|k l Hs IH Hall]; constructor; [|exact IH].
  intros Hin. rewrite Forall_forall in Hall. specialize (Hall k Hin).
  rewrite string_ltb_irrefl in Hall. discriminate Hall.
Qed.

Lemma insert_desc_perm (by_ : string) (r : record) (l : list record) :
  Permutation (insert_desc by_ r l) (r :: l).
Proof.
  induction l as [|r' l IH]; simpl; [apply Permutation_refl|].
  destruct (desc_before _ _); [|apply Permutation_refl].
  apply perm_trans with (r' :: r :: l); [apply perm_skip; exact IH | apply perm_swap].
Qed.

Lemma sort_desc_perm (by_ : string) (l : list record) :
  Permutation (fold_right (insert_desc by_) [] l) l.
Proof.
  induction l as [|r l IH]; simpl; [apply perm_nil|].
  apply perm_trans with (r :: fold_right (insert_desc by_) [] l);
    [apply insert_desc_perm | apply perm_skip; exact IH].
Qed.

Lemma record_dimension (df : DataFrame) (r : record) (name : string) :
  In r (flat_map (dimension_records df) LABEL_COLUMNS) ->
  field "维度" r = CStr name ->
  exists col, In col LABEL_COLUMNS /\ name = aspect_name col /\
              (0 < dimension_total (flat_map (dimension_records df) LABEL_COLUMNS)
                     (aspect_name col))%Z.
Proof.
  intros Hr Hname. apply in_flat_map in Hr. destruct Hr as (col & Hcol & Hr).
  pose proof Hr as Hr'.
  apply dimension_records_In in Hr'. destruct Hr' as (s & Hs & Hpos & ->).
  cbn in Hname. injection Hname as <-.
  exists col. split; [exact Hcol|]. split; [reflexivity|].
  unfold dimension_total. rewrite filter_records_of;
    [ | exact LABEL_COLUMNS_NoDup | exact Hcol
      | intros c Hin He; apply aspect_name_injective; assumption ].
  rewrite dimension_records_total.
  simpl in Hs. destruct Hs as [<-|[<-|[<-|[]]]]; lia.
Qed.

(** X8: when the long-format aggregate of a table has entries, the ranking
    chart is drawn from a frame with the columns 维度 and 评论数 whose rows
    are in descending order of the total.  Every row belongs to one of the
    fixed dimensions and carries its positive total, no display name occurs
    twice, and there are at most 18 rows. *)
Theorem aspect_counts_shape (df : DataFrame) (records : list record) :
  has_label_columns df = true ->
  plot_data df = Ok records ->
  records <> [] ->
  exists ranking,
    aspect_counts (frame_of_records records) = Ok ranking /\
    columns ranking = ["维度"; "评论数"] /\
    Sorted (desc_ordered "评论数") (rows ranking) /\
    NoDup (map (field "维度") (rows ranking)) /\
    (len ranking <= 18)%nat /\
    forall r, In r (rows ranking) ->
      exists col, In col LABEL_COLUMNS /\
                  r = ranking_row records (aspect_name col) /\
                  (0 < dimension_total records (aspect_name col))%Z.
Proof.
  intros Hcols Hplot Hne.
  rewrite (plot_data_spec df Hcols) in Hplot. injection Hplot as <-.
  set (records := flat_map (dimension_records df) LABEL_COLUMNS) in *.
  assert (Hall : forall r, In r records -> is_plot_record r)
    by (apply plot_data_records).
  rewrite aspect_counts_spec by (apply frame_of_records_columns; assumption).
  eexists; split; [reflexivity|]. cbn [columns rows frame_of_records].
  set (keys := group_keys (map (field "维度") records)).
  assert (Hkeys : forall k, In k keys ->
            exists col, In col LABEL_COLUMNS /\ k = aspect_name col /\
                        (0 < dimension_total records (aspect_name col))%Z).
  { intros k Hk. apply group_keys_In, in_map_iff in Hk.
    destruct Hk as (r & Hname & Hr). exact (record_dimension df r k Hr Hname). }
  split; [reflexivity|].
  split; [apply sort_desc_sorted|].
  split; [|split].
  - apply (Permutation_NoDup (l := map (field "维度") (map (ranking_row records) keys))).
    + apply Permutation_map, Permutation_sym, sort_desc_perm.
    + rewrite map_map. cbn.
      apply Finite.Injective_map_NoDup; [intros x y H; congruence|].
      apply group_keys_NoDup.
  - unfold len; cbn [rows]. rewrite sort_desc_length, length_map.
    change 18%nat with (List.length (map aspect_name LABEL_COLUMNS)).
    apply NoDup_incl_length; [apply group_keys_NoDup|].
    intros k Hk. destruct (Hkeys k Hk) as (col & Hcol & -> & _).
    apply in_map; exact Hcol.
  - intros r Hr. apply sort_desc_In, in_map_iff in Hr.
    destruct Hr as (k & <- & Hk).
    destruct (Hkeys k Hk) as (col & Hcol & -> & Hpos).
    exists col; repeat split; assumption.
Qed.

Lemma aspect_counts_shape_witness :
  exists records ranking,
    plot_data praise_only = Ok records /\
    aspect_counts (frame_of_records records) = Ok ranking /\
    NoDup (map (field "维度") (rows ranking)) /\
    (len ranking <= 18)%nat.
Proof.
  assert (Hp : exists records, plot_data praise_only = Ok records /\ records <> []).
  { eexists; split; [vm_compute; reflexivity | discriminate]. }
  destruct Hp as (records & Hp & Hne).
  destruct (aspect_counts_shape praise_only records)
    as (ranking & Hr & _ & _ & Hnd & Hlen & _).
  - vm_compute; reflexivity.
  - exact Hp.
  - exact Hne.
  - exists records, ranking. repeat split; assumption.
Defined.

(** ** The negative top 5 and the chart section *)

Lemma desc_ordered_trans (by_ : string) (a b c : record) :
  desc_ordered by_ a b -> desc_ordered by_ b c -> desc_ordered by_ a c.
Proof.
  unfold desc_ordered, desc_before.
  destruct (cell_value (field by_ a)) as [x|],
           (cell_value (field by_ b)) as [y|],
           (cell_value (field by_ c)) as [z|]; try congruence.
  intros Hab Hbc. apply negb_false_iff in Hab, Hbc. apply negb_false_iff.
  apply Qle_bool_iff in Hab, Hbc. apply Qle_bool_iff.
  eapply Qle_trans; eassumption.
Qed.

Lemma sorted_split_ordered {A : Type} (R : A -> A -> Prop) (l1 l2 : list A) :
  StronglySorted R (l1 ++ l2) ->
  forall a b, In a l1 -> In b l2 -> R a b.
Proof.
  induction l1 as [|x l1 IH]; simpl; intros Hs a b Ha Hb; [destruct Ha|].
  inversion Hs as [|? ? Hs' Hall]; subst.
  destruct Ha as [<-|Ha].
  - rewrite Forall_forall in Hall. apply Hall, in_or_app. right; exact Hb.
  - apply IH; assumption.
Qed.

Lemma neg_counts_spec (df_plot : DataFrame) :
  has_column "情感" df_plot = true ->
  has_column "评论数" df_plot = true ->
  neg_counts df_plot
  = Ok {| columns := columns df_plot;
          rows := firstn 5
                    (fold_right (insert_desc "评论数") []
                       (filter (fun r => cell_eq_str "负面" (field "情感" r))
                          (rows df_plot))) |}.
Proof.
  intros Hs Hc. unfold neg_counts. rewrite (getitem_ok _ _ Hs). cbn [rbind].
  unfold sort_values_desc. rewrite getitem_ok by exact Hc. cbn [rbind].
  unfold head, select; cbn [columns rows]. rewrite map_map.
  rewrite (select_mask_filter (fun r => cell_eq_str "负面" (field "情感" r))).
  reflexivity.
Qed.

(** X9: whenever the negative top 5 is returned, it has the columns of the
    aggregate and at most 5 rows, in descending order of the count; its rows
    together with the rows left out are exactly the negative entries of the
    aggregate, no row left out has a larger count than a row kept, and rows
    are left out only when 5 are kept. *)
Theorem neg_counts_top_five (df_plot neg : DataFrame) :
  neg_counts df_plot = Ok neg ->
  columns neg = columns df_plot /\
  (len neg <= 5)%nat /\
  Sorted (desc_ordered "评论数") (rows neg) /\
  exists rest,
    Permutation (rows neg ++ rest)
      (filter (fun r => cell_eq_str "负面" (field "情感" r)) (rows df_plot)) /\
    (forall a b, In a (rows neg) -> In b rest -> desc_ordered "评论数" a b) /\
    (rest <> [] -> len neg = 5%nat).
Proof.
  intros H.
  assert (Hs : has_column "情感" df_plot = true).
  { unfold neg_counts, getitem in H.
    destruct (has_column "情感" df_plot); [reflexivity | discriminate H]. }
  assert (Hc : has_column "评论数" df_plot = true).
  { unfold neg_counts in H. rewrite (getitem_ok _ _ Hs) in H. cbn [rbind] in H.
    unfold sort_values_desc, getitem, has_column, select in H. cbn [columns] in H.
    fold (has_column "评论数" df_plot) in H.
    destruct (has_column "评论数" df_plot); [reflexivity | discriminate H]. }
  rewrite (neg_counts_spec df_plot Hs Hc) in H.
  set (negs := filter (fun r => cell_eq_str "负面" (field "情感" r)) (rows df_plot))
    in *.
  set (sorted := fold_right (insert_desc "评论数") [] negs) in *.
  remember (firstn 5 sorted) as kept eqn:Hkept.
  injection H as <-. unfold len. cbn [columns rows]. subst kept.
  split; [reflexivity|].
  split; [apply firstn_le_length|].
  split; [apply firstn_sorted, sort_desc_sorted|].
  exists (skipn 5 sorted). split; [|split].
  - rewrite firstn_skipn. apply sort_desc_perm.
  - apply sorted_split_ordered. rewrite firstn_skipn.
    apply Sorted_StronglySorted; [|apply sort_desc_sorted].
    intros a b c; apply desc_ordered_trans.
  - intros Hrest. apply firstn_length_le.
    destruct (Nat.le_gt_cases 5 (List.length sorted)) as [Hle|Hgt]; [exact Hle|].
    exfalso; apply Hrest. apply skipn_all2. lia.
Qed.

Lemma neg_counts_top_five_witness :
  exists records neg,
    plot_data ten_reviews = Ok records /\
    neg_counts (frame_of_records records) = Ok neg /\
    (len neg <= 5)%nat /\
    Sorted (desc_ordered "评论数") (rows neg).
Proof.
  assert (Hn : exists records neg,
             plot_data ten_reviews = Ok records /\
             neg_counts (frame_of_records records) = Ok neg).
  { eexists; eexists; split; vm_compute; reflexivity. }
  destruct Hn as (records & neg & Hp & Hn).
  destruct (neg_counts_top_five (frame_of_records records) neg Hn)
    as (_ & Hlen & Hsorted & _).
  exists records, neg. repeat split; assumption.
Defined.

Lemma negative_record_iff (df : DataFrame) :
  (exists r, In r (flat_map (dimension_records df) LABEL_COLUMNS) /\
             cell_eq_str "负面" (field "情感" r) = true)
  <-> exists col row, In col LABEL_COLUMNS /\ In row (rows df) /\
                      field col row = CStr "负面".
Proof.
  split.
  - intros (r & Hr & Hneg).
    apply in_flat_map in Hr. destruct Hr as (col & Hcol & Hr).
    apply dimension_records_In in Hr. destruct Hr as (s & _ & Hpos & ->).
    cbn in Hneg. apply String.eqb_eq in Hneg. subst s.
    unfold value_count in Hpos.
    destruct (filter _ _) as [|c l] eqn:Hf; [simpl in Hpos; lia|].
    assert (Hc : In c (filter (cell_eq_str "负面") (map (field col) (rows df))))
      by (rewrite Hf; left; reflexivity).
    apply filter_In in Hc. destruct Hc as [Hin Hc].
    apply in_map_iff in Hin. destruct Hin as (row & <- & Hrow).
    exists col, row. repeat split; try assumption.
    destruct (field col row); simpl in Hc; try discriminate.
    apply String.eqb_eq in Hc; subst; reflexivity.
  - intros (col & row & Hcol & Hrow & Hlabel).
    set (n := value_count (map (field col) (rows df)) "负面").
    assert (Hpos : (0 < n)%nat).
    { unfold n, value_count.
      assert (Hin : In (CStr "负面")
                       (filter (cell_eq_str "负面") (map (field col) (rows df)))).
      { apply filter_In. split; [|reflexivity].
        rewrite <- Hlabel. apply in_map; exact Hrow. }
      destruct (filter _ _); [destruct Hin | simpl; lia]. }
    exists (plot_record col "负面" n). split; [|reflexivity].
    apply in_flat_map. exists col. split; [exact Hcol|].
    unfold dimension_records, SENTIMENTS. cbn [flat_map]. cbv zeta.
    apply in_or_app; right. apply in_or_app; left.
    fold n. apply Nat.ltb_lt in Hpos. rewrite Hpos. left; reflexivity.
Qed.

(** X10: when the long-format aggregate of a table has entries, the chart
    section raises nothing and shows the stacked chart, the ranking chart
    and then either the chart of the negative top 5 or the success line;
    the success line is shown exactly when no label of the table is
    负面. *)
Theorem chart_section_outcome (df : DataFrame) (records : list record) :
  has_label_columns df = true ->
  plot_data df = Ok records ->
  records <> [] ->
  exists ranking neg,
    aspect_counts (frame_of_records records) = Ok ranking /\
    neg_counts (frame_of_records records) = Ok neg /\
    chart_section df
    = ([ st_text "2. 属性维度情感分布";
         st_altair_chart (frame_of_records records);
         st_text "💡 **图表解读**：绿色代表正面评价，红色代表负面评价。柱子越高，代表用户讨论该属性的次数越多。";
         st_text "3. 用户关注点排行";
         st_altair_chart ranking;
         st_text "4. 负面评价重灾区";
         if empty neg then st_success "暂无显著的负面评价聚集！"
         else st_altair_chart neg ],
       Next tt) /\
    (empty neg = true <->
     forall col row, In col LABEL_COLUMNS -> In row (rows df) ->
                     field col row <> CStr "负面").
Proof.
  intros Hcols Hplot Hne.
  assert (Hrecords : records = flat_map (dimension_records df) LABEL_COLUMNS).
  { pose proof (plot_data_spec df Hcols) as Hs. rewrite Hplot in Hs. congruence. }
  assert (Hall : forall r, In r records -> is_plot_record r).
  { intros r Hr. rewrite Hrecords in Hr. exact (plot_data_records df r Hr). }
  pose proof (frame_of_records_columns records Hne Hall) as Hpc.
  pose proof (aspect_counts_spec (frame_of_records records) Hpc) as Hrank.
  assert (Hneg : neg_counts (frame_of_records records)
                 = Ok {| columns := PLOT_COLUMNS;
                         rows := firstn 5
                           (fold_right (insert_desc "评论数") []
                              (filter (fun r => cell_eq_str "负面" (field "情感" r))
                                 records)) |}).
  { rewrite neg_counts_spec by (unfold has_column; rewrite Hpc; reflexivity).
    rewrite Hpc. reflexivity. }
  eexists; eexists. split; [exact Hrank|]. split; [exact Hneg|].
  split.
  - unfold chart_section. rewrite Hplot. unfold bind, emit, lift.
    rewrite Hrank, Hneg.
    destruct (empty _); reflexivity.
  - set (negs := filter (fun r => cell_eq_str "负面" (field "情感" r)) records).
    assert (Hempty : empty {| columns := PLOT_COLUMNS;
                              rows := firstn 5
                                (fold_right (insert_desc "评论数") [] negs) |} = true
                     <-> negs = []).
    { unfold empty; cbn [columns rows PLOT_COLUMNS].
      destruct negs as [|r l] eqn:Hn; [simpl; tauto|].
      pose proof (sort_desc_length "评论数" (r :: l)) as Hl.
      destruct (fold_right (insert_desc "评论数") [] (r :: l)); [discriminate Hl|].
      simpl. split; discriminate. }
    rewrite Hempty. split.
    + intros Hn col row Hcol Hrow Hlabel.
      destruct (proj2 (negative_record_iff df)) as (r & Hr & Hrneg).
      { exists col, row. repeat split; assumption. }
      rewrite <- Hrecords in Hr.
      assert (Hin : In r negs) by (apply filter_In; split; assumption).
      rewrite Hn in Hin. destruct Hin.
    + intros Hnone. destruct negs as [|r l] eqn:Hn; [reflexivity|].
      assert (Hin : In r negs) by (rewrite Hn; left; reflexivity).
      apply filter_In in Hin. destruct Hin as [Hr Hrneg].
      rewrite Hrecords in Hr.
      destruct (proj1 (negative_record_iff df)) as (col & row & Hcol & Hrow & Hl).
      { exists r; split; assumption. }
      exfalso. exact (Hnone col row Hcol Hrow Hl).
Qed.

Lemma chart_section_outcome_witness :
  In (st_success "暂无显著的负面评价聚集！") (fst (chart_section praise_only)).
Proof.
  assert (Hp : exists records, plot_data praise_only = Ok records /\ records <> []).
  { eexists; split; [vm_compute; reflexivity | discriminate]. }
  destruct Hp as (records & Hp & Hne).
  destruct (chart_section_outcome praise_only records)
    as (ranking & neg & _ & _ & Hsec & Hiff).
  - vm_compute; reflexivity.
  - exact Hp.
  - exact Hne.
  - rewrite Hsec. cbn [fst].
    assert (He : empty neg = true).
    { apply Hiff. intros col row Hcol Hrow.
      unfold LABEL_COLUMNS in Hcol. cbn in Hcol, Hrow.
      destruct Hrow as [<-|[<-|[]]];
        repeat (destruct Hcol as [<-|Hcol]; [vm_compute; discriminate|]);
        destruct Hcol. }
    rewrite He. do 6 right. left; reflexivity.
Defined.

(** ** The run as a whole *)

Lemma bind_not_stopped {A B : Type} (m : ui A) (k : A -> ui B) :
  snd m <> Halt Stopped ->
  (forall a, snd (k a) <> Halt Stopped) ->
  snd (bind m k) <> Halt Stopped.
Proof.
  destruct m as [w [a|h]]; simpl; intros Hm Hk.
  - specialize (Hk a). destruct (k a) as [w' s]. exact Hk.
  - intros H. apply Hm. injection H as ->. reflexivity.
Qed.

Lemma emit_not_stopped (w : widget) : snd (emit w) <> Halt Stopped.
Proof. discriminate. Qed.

Lemma lift_not_stopped {A : Type} (r : result A) : snd (lift r) <> Halt Stopped.
Proof. destruct r; discriminate. Qed.

Lemma bind_next {A B : Type} (m : ui A) (k : A -> ui B) (w : list widget) (b : B) :
  bind m k = (w, Next b) ->
  exists w1 a w2, m = (w1, Next a) /\ k a = (w2, Next b) /\ w = (w1 ++ w2)%list.
Proof.
  destruct m as [w1 [a|h]]; simpl; [|discriminate].
  destruct (k a) as [w2 s] eqn:Hk. intros H; injection H as <- ->.
  exists w1, a, w2. repeat split; assumption.
Qed.

Lemma bind_no_download {A B : Type} (m : ui A) (k : A -> ui B) :
  existsb is_download (fst m) = false ->
  (forall a, existsb is_download (fst (k a)) = false) ->
  existsb is_download (fst (bind m k)) = false.
Proof.
  destruct m as [w [a|h]]; simpl; intros Hm Hk; [|exact Hm].
  specialize (Hk a). destruct (k a) as [w' s]. simpl in *.
  rewrite existsb_app, Hm, Hk. reflexivity.
Qed.

Lemma lift_no_download {A : Type} (r : result A) :
  existsb is_download (fst (lift r)) = false.
Proof. destruct r; reflexivity. Qed.

Lemma bind_download {A B : Type} (m : ui A) (k : A -> ui B) :
  existsb is_download (fst m) = false ->
  existsb is_download (fst (bind m k)) = true ->
  exists a, existsb is_download (fst (k a)) = true /\
            snd (bind m k) = snd (k a).
Proof.
  destruct m as [w [a|h]]; simpl; intros Hm H; [|congruence].
  exists a. destruct (k a) as [w' s]. simpl in *.
  rewrite existsb_app, Hm in H. split; [exact H | reflexivity].
Qed.

Ltac no_downloads :=
  repeat first
    [ apply lift_no_download
    | apply bind_no_download; [|intros]
    | reflexivity ].

Ltac never_stops :=
  repeat first
    [ apply emit_not_stopped
    | apply lift_not_stopped
    | apply bind_not_stopped; [|intros]
    | discriminate ].

Section Run.

Variable to_datetime_value : cell -> option Z.
Variable str_float : Q -> string.
Variable str_time : Z -> string.
Variable draw_wordcloud : string -> option string.

Lemma sidebar_filter_not_stopped (picked : list Z) (df : DataFrame) :
  snd (sidebar_filter picked df) <> Halt Stopped.
Proof.
  unfold sidebar_filter. destruct (has_column "time" df); [|discriminate].
  never_stops.
  match goal with
  | |- context [time_min ?t] =>
      destruct (time_min t); [destruct (time_max t)|]
  end; never_stops.
Qed.

Lemma kpi_section_not_stopped (df : DataFrame) :
  snd (kpi_section df) <> Halt Stopped.
Proof. unfold kpi_section. never_stops. Qed.

Lemma chart_section_not_stopped (df : DataFrame) :
  snd (chart_section df) <> Halt Stopped.
Proof.
  unfold chart_section. never_stops.
  match goal with |- context [empty ?neg] => destruct (negb (empty neg)) end;
    never_stops.
Qed.

Lemma wordcloud_section_not_stopped (mode : wc_mode) (df : DataFrame) :
  snd (wordcloud_section str_float str_time draw_wordcloud mode df) <> Halt Stopped.
Proof.
  unfold wordcloud_section. never_stops.
  rewrite wordcloud_never_halts. discriminate.
Qed.

Lemma table_section_widgets (df : DataFrame) :
  table_section df
  = ([ st_text "6. 原始数据查询"; st_text "您可以查看每一条评论的模型分析结果。";
       st_dataframe df; st_download_button df "analysis_report.csv" ],
     Next tt).
Proof. reflexivity. Qed.

Lemma loaded_not_stopped (df0 : option DataFrame) :
  snd (loaded df0) <> Halt Stopped.
Proof. destruct df0; discriminate. Qed.

Lemma choose_file_not_stopped (s : session) :
  uploaded_file s <> None \/ default_file s <> None ->
  snd (choose_file to_datetime_value s) <> Halt Stopped.
Proof.
  unfold choose_file.
  destruct (uploaded_file s) as [f|]; [discriminate|].
  destruct (default_file s) as [f|]; [discriminate|].
  intros [H|H]; congruence.
Qed.

(** X11: the script ends in [st.stop()] exactly when there is neither an
    uploaded file nor the default file; once a file is chosen, whatever goes
    wrong later ends the run in an exception, never in a stop. *)
Theorem app_stops_without_file (s : session) :
  snd (app to_datetime_value str_float str_time draw_wordcloud s) = Halt Stopped
  <-> uploaded_file s = None /\ default_file s = None.
Proof.
  split.
  - intros H.
    destruct (uploaded_file s) as [f|] eqn:Hu;
      [|destruct (default_file s) as [f|] eqn:Hd; [|split; reflexivity]];
      exfalso; revert H; unfold app;
      repeat first
        [ apply emit_not_stopped
        | apply loaded_not_stopped
        | apply sidebar_filter_not_stopped
        | apply kpi_section_not_stopped
        | apply chart_section_not_stopped
        | apply wordcloud_section_not_stopped
        | apply choose_file_not_stopped; rewrite ?Hu, ?Hd;
          first [left; discriminate | right; discriminate]
        | apply bind_not_stopped; [|intros] ].
  - destruct s as [up dflt mode picked]. cbn [uploaded_file default_file].
    intros [-> ->]. reflexivity.
Qed.

Lemma choose_file_no_download (s : session) :
  existsb is_download (fst (choose_file to_datetime_value s)) = false.
Proof.
  unfold choose_file.
  destruct (uploaded_file s); [|destruct (default_file s)]; reflexivity.
Qed.

Lemma loaded_no_download (df0 : option DataFrame) :
  existsb is_download (fst (loaded df0)) = false.
Proof. destruct df0; reflexivity. Qed.

Lemma sidebar_filter_no_download (picked : list Z) (df : DataFrame) :
  existsb is_download (fst (sidebar_filter picked df)) = false.
Proof.
  unfold sidebar_filter. destruct (has_column "time" df); [|reflexivity].
  no_downloads.
  match goal with
  | |- context [time_min ?t] =>
      destruct (time_min t); [destruct (time_max t)|]
  end; no_downloads.
Qed.

Lemma kpi_section_no_download (df : DataFrame) :
  existsb is_download (fst (kpi_section df)) = false.
Proof. unfold kpi_section. no_downloads. Qed.

Lemma chart_section_no_download (df : DataFrame) :
  existsb is_download (fst (chart_section df)) = false.
Proof.
  unfold chart_section. no_downloads.
  match goal with |- context [empty ?neg] => destruct (negb (empty neg)) end;
    reflexivity.
Qed.

Lemma wordcloud_section_no_download (mode : wc_mode) (df : DataFrame) :
  existsb is_download
    (fst (wordcloud_section str_float str_time draw_wordcloud mode df)) = false.
Proof.
  unfold wordcloud_section. no_downloads.
  unfold wordcloud.
  match goal with |- context [match ?t with EmptyString => _ | String _ _ => _ end] =>
    destruct t; [reflexivity|] end.
  destruct (draw_wordcloud _); reflexivity.
Qed.

(** X12: whenever the script runs to its end, a file was chosen (the upload, or
    the default file when nothing was uploaded), [load_data] returned a
    table for it, and the last widgets shown are the table view and the
    download button, both carrying that whole table, whatever the
    word-cloud mode.  A download button is shown in no other run: when any
    section raises, the export is not offered. *)
Theorem app_completes_with_export (s : session) :
  (snd (app to_datetime_value str_float str_time draw_wordcloud s) = Next tt ->
   exists file df shown,
     (uploaded_file s = Some file \/
      (uploaded_file s = None /\ default_file s = Some file)) /\
     load_data to_datetime_value file = Some df /\
     fst (app to_datetime_value str_float str_time draw_wordcloud s)
     = (shown ++ [ st_text "6. 原始数据查询";
                   st_text "您可以查看每一条评论的模型分析结果。";
                   st_dataframe df;
                   st_download_button df "analysis_report.csv" ])%list) /\
  (existsb is_download
     (fst (app to_datetime_value str_float str_time draw_wordcloud s)) = true ->
   snd (app to_datetime_value str_float str_time draw_wordcloud s) = Next tt).
Proof.
  split.
  - destruct (app to_datetime_value str_float str_time draw_wordcloud s)
      as [w st] eqn:E.
    cbn [fst snd]. intros ->. unfold app in E.
    apply bind_next in E. destruct E as (w1 & [] & w' & _ & E & ->).
    apply bind_next in E. destruct E as (w2 & df0 & w'' & Hfile & E & ->).
    apply bind_next in E. destruct E as (w3 & [] & w' & _ & E & ->).
    apply bind_next in E. destruct E as (w4 & df & w'' & Hloaded & E & ->).
    apply bind_next in E. destruct E as (w5 & [] & w' & _ & E & ->).
    apply bind_next in E. destruct E as (w6 & [] & w'' & _ & E & ->).
    apply bind_next in E. destruct E as (w7 & [] & w' & _ & E & ->).
    apply bind_next in E. destruct E as (w8 & [] & w'' & _ & E & ->).
    apply bind_next in E. destruct E as (w9 & [] & w' & _ & E & ->).
    apply bind_next in E. destruct E as (w10 & [] & w'' & _ & E & ->).
    rewrite table_section_widgets in E. injection E as <-.
    assert (Hdf0 : df0 = Some df).
    { destruct df0 as [d|]; [|discriminate Hloaded].
      unfold loaded, ret in Hloaded. congruence. }
    subst df0.
    assert (Hchosen : exists file,
              (uploaded_file s = Some file \/
               (uploaded_file s = None /\ default_file s = Some file)) /\
              load_data to_datetime_value file = Some df).
    { unfold choose_file in Hfile.
      destruct (uploaded_file s) as [f|]; [|destruct (default_file s) as [f|]].
      - exists f. split; [left; reflexivity|].
        cbv in Hfile. injection Hfile as _ Hf.
        fold (load_data to_datetime_value f) in Hf. exact Hf.
      - exists f. split; [right; split; reflexivity|].
        cbv in Hfile. injection Hfile as _ Hf.
        fold (load_data to_datetime_value f) in Hf. exact Hf.
      - discriminate Hfile. }
    destruct Hchosen as (file & Hwhich & Hload).
    exists file, df. eexists. split; [exact Hwhich|]. split; [exact Hload|].
    rewrite !app_assoc. reflexivity.
  - unfold app. intros H.
    apply bind_download in H; [|reflexivity].
    destruct H as ([] & H & ->).
    apply bind_download in H; [|apply choose_file_no_download].
    destruct H as (df0 & H & ->).
    apply bind_download in H; [|reflexivity].
    destruct H as ([] & H & ->).
    apply bind_download in H; [|apply loaded_no_download].
    destruct H as (df & H & ->).
    apply bind_download in H; [|apply sidebar_filter_no_download].
    destruct H as ([] & H & ->).
    apply bind_download in H; [|reflexivity].
    destruct H as ([] & H & ->).
    apply bind_download in H; [|reflexivity].
    destruct H as ([] & H & ->).
    apply bind_download in H; [|apply kpi_section_no_download].
    destruct H as ([] & H & ->).
    apply bind_download in H; [|apply chart_section_no_download].
    destruct H as ([] & H & ->).
    apply bind_download in H; [|apply wordcloud_section_no_download].
    destruct H as ([] & H & ->).
    reflexivity.
Qed.

End Run.

Lemma app_completes_with_export_witness :
  exists shown,
    fst (app sample_to_datetime sample_str_float sample_str_time draw_succeeds
           {| uploaded_file := Some (Readable ten_reviews);
              default_file := None; wc_option := WcAll;
                 picked_dates := [] |})
    = (shown ++ [ st_text "6. 原始数据查询";
                  st_text "您可以查看每一条评论的模型分析结果。";
                  st_dataframe ten_reviews;
                  st_download_button ten_reviews "analysis_report.csv" ])%list.
Proof.
  destruct (app_completes_with_export sample_to_datetime sample_str_float
              sample_str_time draw_succeeds
              {| uploaded_file := Some (Readable ten_reviews);
                 default_file := None; wc_option := WcAll;
                 picked_dates := [] |})
    as [Hruns _].
  destruct Hruns as (file & df & shown & Hwhich & Hload & Hshown).
  - vm_compute; reflexivity.
  - cbn [uploaded_file default_file] in Hwhich.
    destruct Hwhich as [Hf|[Hf _]]; [|discriminate Hf].
    injection Hf as <-. vm_compute in Hload. injection Hload as <-.
    exists shown. exact Hshown.
Defined.

(** ** The date range of the sidebar *)

Lemma time_min_spec (l : list cell) :
  match time_min l with
  | Some m => In (CTime m) l /\ forall t, In (CTime t) l -> (m <= t)%Z
  | None => forall t, ~ In (CTime t) l
  end.
Proof.
  induction l as [|c l IH]; simpl; [tauto|].
  destruct c as [z|q| |s|t0| ];
    try (destruct (time_min l) as [m|];
         [ destruct IH as [Hin Hle]; split;
           [right; exact Hin | intros t [H|H]; [discriminate H | apply Hle; exact H]]
         | intros t [H|H]; [discriminate H | exact (IH t H)] ]).
  destruct (time_min l) as [m|].
  - destruct IH as [Hin Hle]. split.
    + destruct (Z.min_spec t0 m) as [[_ ->]|[_ ->]]; [left; reflexivity | right; exact Hin].
    + intros t [H|H]; [injection H as <-; apply Z.le_min_l|].
      specialize (Hle t H). pose proof (Z.le_min_r t0 m). lia.
  - split; [left; reflexivity|].
    intros t [H|H]; [injection H as <-; lia | exfalso; exact (IH t H)].
Qed.

Lemma time_max_spec (l : list cell) :
  match time_max l with
  | Some m => In (CTime m) l /\ forall t, In (CTime t) l -> (t <= m)%Z
  | None => forall t, ~ In (CTime t) l
  end.
Proof.
  induction l as [|c l IH]; simpl; [tauto|].
  destruct c as [z|q| |s|t0| ];
    try (destruct (time_max l) as [m|];
         [ destruct IH as [Hin Hle]; split;
           [right; exact Hin | intros t [H|H]; [discriminate H | apply Hle; exact H]]
         | intros t [H|H]; [discriminate H | exact (IH t H)] ]).
  destruct (time_max l) as [m|].
  - destruct IH as [Hin Hle]. split.
    + destruct (Z.max_spec t0 m) as [[_ ->]|[_ ->]]; [right; exact Hin | left; reflexivity].
    + intros t [H|H]; [injection H as <-; apply Z.le_max_l|].
      specialize (Hle t H). pose proof (Z.le_max_r t0 m). lia.
  - split; [left; reflexivity|].
    intros t [H|H]; [injection H as <-; lia | exfalso; exact (IH t H)].
Qed.

Lemma date_monotone (a b : Z) : (a <= b)%Z -> (date a <= date b)%Z.
Proof. intros H. unfold date. apply Z.div_le_mono; [reflexivity | exact H]. Qed.

(** X13: on a table with a time column the sidebar shows no date input and
    raises nothing when the column holds no timestamp (all values are NaT
    after the coercion), whatever the picker would return.  Otherwise it
    shows one date input whose first date is not after its second, with the
    date of every timestamp of the column between the two; after it the
    sidebar raises nothing when the picker returns two dates, and
    ValueError when it returns any other tuple. *)
Theorem sidebar_date_range (df : DataFrame) :
  has_column "time" df = true ->
  ((forall r t, In r (rows df) -> field "time" r <> CTime t) ->
   forall picked, sidebar_filter picked df = ([], Next tt)) /\
  ((exists r t, In r (rows df) /\ field "time" r = CTime t) ->
   exists lo hi,
     (lo <= hi)%Z /\
     (forall r t, In r (rows df) -> field "time" r = CTime t ->
                  (lo <= date t <= hi)%Z) /\
     (forall a b,
        sidebar_filter [a; b] df = ([st_date_input lo hi], Next tt)) /\
     (forall picked, List.length picked <> 2%nat ->
        sidebar_filter picked df
        = ([st_date_input lo hi], Halt (Crashed ValueError)))).
Proof.
  intros Hc. unfold sidebar_filter. rewrite Hc, (getitem_ok _ _ Hc).
  unfold bind, lift, emit, ret.
  pose proof (time_min_spec (map (field "time") (rows df))) as Hmin.
  pose proof (time_max_spec (map (field "time") (rows df))) as Hmax.
  destruct (time_min _) as [lo|]; destruct (time_max _) as [hi|].
  - destruct Hmin as [Hlo Hmin], Hmax as [Hhi Hmax]. split.
    + intros Hnone. exfalso.
      apply in_map_iff in Hlo. destruct Hlo as (r & Hr & Hin).
      exact (Hnone r lo Hin Hr).
    + intros _. exists (date lo), (date hi).
      split; [apply date_monotone, Hmax; exact Hlo|].
      split; [|split].
      * intros r t Hin Hr.
        assert (Ht : In (CTime t) (map (field "time") (rows df)))
          by (rewrite <- Hr; apply in_map; exact Hin).
        split; apply date_monotone; [apply Hmin | apply Hmax]; exact Ht.
      * intros a b. reflexivity.
      * intros picked Hlen.
        destruct picked as [|a [|b [|c picked]]]; simpl in Hlen; try reflexivity.
        congruence.
  - exfalso. destruct Hmin as [Hlo _]. exact (Hmax lo Hlo).
  - exfalso. destruct Hmax as [Hhi _]. exact (Hmin hi Hhi).
  - split; [intros _ picked; reflexivity|].
    intros (r & t & Hin & Hr). exfalso. apply (Hmin t).
    rewrite <- Hr. apply in_map; exact Hin.
Qed.

Lemma sidebar_date_range_witness :
  exists lo hi,
    sidebar_filter [lo; hi] timed_loaded = ([st_date_input lo hi], Next tt) /\
    sidebar_filter [lo] timed_loaded
    = ([st_date_input lo hi], Halt (Crashed ValueError)) /\
    (lo <= hi)%Z.
Proof.
  destruct (sidebar_date_range timed_loaded) as [_ H].
  - vm_compute; reflexivity.
  - destruct H as (lo & hi & Hle & _ & Hpair & Hother).
    + exists (hd [] (rows timed_loaded)), 1704153600000000000%Z.
      split; [|vm_compute; reflexivity].
      vm_compute. left; reflexivity.
    + exists lo, hi. split; [apply Hpair|].
      split; [apply Hother; discriminate | exact Hle].
Defined.

(** ** The picked range *)

Lemma bind_ext {A B : Type} (m : ui A) (k k' : A -> ui B) :
  (forall a, k a = k' a) -> bind m k = bind m k'.
Proof.
  intros H. destruct m as [w [a|h]]; simpl; [rewrite H|]; reflexivity.
Qed.

Section PickedRange.

Variable to_datetime_value : cell -> option Z.
Variable str_float : Q -> string.
Variable str_time : Z -> string.
Variable draw_wordcloud : string -> option string.

Lemma sidebar_filter_pair (a b a' b' : Z) (df : DataFrame) :
  sidebar_filter [a; b] df = sidebar_filter [a'; b'] df.
Proof.
  unfold sidebar_filter.
  destruct (has_column "time" df); [|reflexivity].
  destruct (getitem df "time") as [t|e]; [|reflexivity].
  unfold bind, lift, emit, ret, unpack_range.
  destruct (time_min t); [destruct (time_max t)|]; reflexivity.
Qed.

(** X14: the two dates unpacked from the picker are never used: with a
    complete range picked, the sidebar and the whole run are the same
    whatever the two dates are.  While the picker holds fewer than two dates
    (or more), the unpacking raises ValueError right after the date input is
    shown; when no date input is shown, nothing is unpacked. *)
Theorem picked_range_unused (picked : list Z) (df : DataFrame) :
  (forall a b a' b',
     sidebar_filter [a; b] df = sidebar_filter [a'; b'] df /\
     forall upload fallback mode,
       app to_datetime_value str_float str_time draw_wordcloud
         {| uploaded_file := upload; default_file := fallback;
            wc_option := mode; picked_dates := [a; b] |}
       = app to_datetime_value str_float str_time draw_wordcloud
           {| uploaded_file := upload; default_file := fallback;
              wc_option := mode; picked_dates := [a'; b'] |}) /\
  (List.length picked <> 2%nat ->
   forall a b lo hi,
     sidebar_filter [a; b] df = ([st_date_input lo hi], Next tt) ->
     sidebar_filter picked df
     = ([st_date_input lo hi], Halt (Crashed ValueError))) /\
  (forall a b,
     sidebar_filter [a; b] df = ([], Next tt) ->
     sidebar_filter picked df = ([], Next tt)).
Proof.
  split; [|split].
  - intros a b a' b'. split; [apply sidebar_filter_pair|].
    intros upload fallback mode. unfold app.
    cbn [uploaded_file default_file wc_option picked_dates].
    apply bind_ext; intros _. apply bind_ext; intros df0.
    apply bind_ext; intros _. apply bind_ext; intros d.
    rewrite (sidebar_filter_pair a b a' b'). reflexivity.
  - intros Hlen a b lo hi. unfold sidebar_filter.
    destruct (has_column "time" df); [|discriminate].
    destruct (getitem df "time") as [t|e]; [|discriminate].
    unfold bind, lift, emit, ret.
    destruct (time_min t); [destruct (time_max t)|]; try discriminate.
    cbn [unpack_range]. intros H; injection H as <- <-.
    destruct picked as [|p1 [|p2 [|p3 picked]]]; simpl in Hlen; try reflexivity.
    congruence.
  - intros a b. unfold sidebar_filter.
    destruct (has_column "time" df); [|reflexivity].
    destruct (getitem df "time") as [t|e]; [|discriminate].
    unfold bind, lift, emit, ret.
    destruct (time_min t); [destruct (time_max t)|]; try discriminate;
      reflexivity.
Qed.

End PickedRange.

(** ** The aggregates do not read the time column *)

Lemma select_length_mask (l : list record) :
  forall mask,
    List.length (map fst (filter snd (combine l mask)))
    = List.length (filter (fun b : bool => b) (firstn (List.length l) mask)).
Proof.
  induction l as [|r l IH]; intros [|b mask]; simpl; try reflexivity.
  destruct b; simpl; rewrite IH; reflexivity.
Qed.

Lemma select_column (name : string) (l : list record) :
  forall mask,
    map (field name) (map fst (filter snd (combine l mask)))
    = map fst (filter snd (combine (map (field name) l) mask)).
Proof.
  induction l as [|r l IH]; intros [|b mask]; simpl; try reflexivity.
  destruct b; simpl; rewrite IH; reflexivity.
Qed.

Section SameButTime.

Variables df df' : DataFrame.
Hypothesis same_columns : columns df' = columns df.
Hypothesis same_length : List.length (rows df') = List.length (rows df).
Hypothesis same_cells :
  forall name, name <> "time" ->
    map (field name) (rows df') = map (field name) (rows df).

Lemma same_has_column (name : string) : has_column name df' = has_column name df.
Proof. unfold has_column. rewrite same_columns. reflexivity. Qed.

Lemma same_getitem (name : string) :
  name <> "time" -> getitem df' name = getitem df name.
Proof.
  intros Hne. unfold getitem. rewrite same_has_column, (same_cells name Hne).
  reflexivity.
Qed.

Lemma same_len_select (mask : list bool) :
  len (select df' mask) = len (select df mask).
Proof.
  unfold len, select; cbn [rows]. rewrite !select_length_mask, same_length.
  reflexivity.
Qed.

Lemma same_positive_rate : positive_rate df' = positive_rate df.
Proof.
  unfold positive_rate. rewrite same_has_column.
  rewrite !same_getitem by discriminate.
  unfold len at 2 4. rewrite same_length.
  destruct (has_column "score" df).
  - destruct (getitem df "score") as [score|]; [|reflexivity]. cbn [rbind].
    destruct (mapM (cell_ge 4) score) as [mask|]; [|reflexivity]. cbn [rbind].
    rewrite same_len_select. reflexivity.
  - destruct (getitem df "Food#Recommend") as [rec|]; [|reflexivity]. cbn [rbind].
    rewrite same_len_select. reflexivity.
Qed.

Lemma same_mention_counts (cols : list string) :
  forall counts,
    ~ In "time" cols ->
    mention_counts df' cols counts = mention_counts df cols counts.
Proof.
  induction cols as [|c cols IH]; intros counts Hn; [reflexivity|].
  cbn [mention_counts].
  rewrite same_getitem by (intros ->; apply Hn; left; reflexivity).
  destruct (getitem df c) as [labels|]; [|reflexivity]. cbn [rbind].
  rewrite same_len_select. apply IH. intros H; apply Hn; right; exact H.
Qed.

Lemma same_plot_data_loop (cols : list string) :
  forall acc,
    ~ In "time" cols ->
    plot_data_loop df' cols acc = plot_data_loop df cols acc.
Proof.
  induction cols as [|c cols IH]; intros acc Hn; [reflexivity|].
  cbn [plot_data_loop].
  rewrite same_getitem by (intros ->; apply Hn; left; reflexivity).
  destruct (getitem df c) as [labels|]; [|reflexivity]. cbn [rbind].
  apply IH. intros H; apply Hn; right; exact H.
Qed.

Lemma time_not_a_label : ~ In "time" LABEL_COLUMNS.
Proof.
  assert (H : forallb (fun c => negb (String.eqb c "time")) LABEL_COLUMNS = true)
    by (vm_compute; reflexivity).
  rewrite forallb_forall in H. intros Hin. specialize (H "time" Hin).
  rewrite String.eqb_refl in H. discriminate H.
Qed.

Lemma same_top_aspect : top_aspect df' = top_aspect df.
Proof.
  unfold top_aspect. rewrite (same_mention_counts _ _ time_not_a_label).
  reflexivity.
Qed.

Lemma same_plot_data : plot_data df' = plot_data df.
Proof. unfold plot_data. apply same_plot_data_loop, time_not_a_label. Qed.

Lemma same_join_content (str_float : Q -> string) (str_time : Z -> string)
  (mask : list bool) :
  join_content str_float str_time (select df' mask)
  = join_content str_float str_time (select df mask).
Proof.
  unfold join_content, getitem, has_column, select; cbn [columns rows].
  rewrite same_columns, !select_column, (same_cells "content") by discriminate.
  reflexivity.
Qed.

Lemma same_text_content (str_float : Q -> string) (str_time : Z -> string)
  (mode : wc_mode) :
  text_content str_float str_time mode df'
  = text_content str_float str_time mode df.
Proof.
  assert (Hall : join_content str_float str_time df'
                 = join_content str_float str_time df).
  { unfold join_content. rewrite same_getitem by discriminate. reflexivity. }
  unfold text_content. rewrite same_has_column.
  destruct mode; [exact Hall| |];
    (destruct (has_column "score" df); [|exact Hall]);
    rewrite same_getitem by discriminate;
    (destruct (getitem df "score") as [score|]; [|reflexivity]); cbn [rbind];
    (destruct (mapM _ score) as [mask|]; [|reflexivity]); cbn [rbind];
    apply same_join_content.
Qed.

End SameButTime.

Section LoadKeeps.

Variable to_datetime_value : cell -> option Z.
Variable str_float : Q -> string.
Variable str_time : Z -> string.
Variable draw_wordcloud : string -> option string.

(** X15: [load_data] always returns a table for a file that could be read, and
    the coercion of the time column changes nothing the dashboard computes:
    the row count, the positive rate, the top aspect, the long-format
    aggregate and the word-cloud text of every mode are those of the table
    as read, and so are the KPI, chart and word-cloud sections as a
    whole. *)
Theorem load_data_keeps_aggregates (df : DataFrame) :
  exists df',
    load_data to_datetime_value (Readable df) = Some df' /\
    len df' = len df /\
    positive_rate df' = positive_rate df /\
    top_aspect df' = top_aspect df /\
    plot_data df' = plot_data df /\
    (forall mode,
       text_content str_float str_time mode df'
       = text_content str_float str_time mode df) /\
    kpi_section df' = kpi_section df /\
    chart_section df' = chart_section df /\
    (forall mode,
       wordcloud_section str_float str_time draw_wordcloud mode df'
       = wordcloud_section str_float str_time draw_wordcloud mode df).
Proof.
  assert (Hloaded : exists df',
            load_data to_datetime_value (Readable df) = Some df' /\
            columns df' = columns df /\
            List.length (rows df') = List.length (rows df) /\
            forall name, name <> "time" ->
              map (field name) (rows df') = map (field name) (rows df)).
  { unfold load_data. destruct (has_column "time" df) eqn:Ht.
    - rewrite (getitem_ok _ _ Ht). eexists; split; [reflexivity|].
      split; [apply setitem_columns; exact Ht|].
      unfold to_datetime_coerce. rewrite map_map.
      unfold setitem; cbn [rows]. split.
      + apply (setitem_length "time" (rows df)
                 (fun r => coerce to_datetime_value (field "time" r))).
      + intros name Hne.
        apply (setitem_other "time" name (rows df)
                 (fun r => coerce to_datetime_value (field "time" r)) Hne).
    - exists df. repeat split; reflexivity. }
  destruct Hloaded as (df' & Hload & Hcols & Hlen & Hcells).
  exists df'. split; [exact Hload|].
  pose proof (same_positive_rate df df' Hcols Hlen Hcells) as Hrate.
  pose proof (same_top_aspect df df' Hcols Hlen Hcells) as Htop.
  pose proof (same_plot_data df df' Hcols Hcells) as Hplot.
  pose proof (same_text_content df df' Hcols Hcells str_float str_time) as Htext.
  split; [exact Hlen|]. split; [exact Hrate|]. split; [exact Htop|].
  split; [exact Hplot|]. split; [exact Htext|].
  split; [|split].
  - unfold kpi_section. rewrite Hrate, Htop. unfold len. rewrite Hlen. reflexivity.
  - unfold chart_section. rewrite Hplot. reflexivity.
  - intros mode. unfold wordcloud_section. rewrite Htext. reflexivity.
Qed.

End LoadKeeps.

Example app_incomplete_range :
  let run := app sample_to_datetime sample_str_float sample_str_time draw_succeeds
               {| uploaded_file := Some (Readable timed_reviews);
                  default_file := None; wc_option := WcAll;
                  picked_dates := [19723]%Z |} in
  run = ([ st_text "🛠️ 系统控制面板"; st_sidebar_success "✅ 已加载上传文件";
           st_text "数据筛选"; st_date_input 19723 19724 ],
         Halt (Crashed ValueError)).
Proof. vm_compute. reflexivity. Qed.
